(** * Market-data client of the stock portfolio page (src/app/page.tsx)

    A shallow embedding of the [AlphaVantageAPI] class and of the two
    handlers of [StockPortfolioApp] that call it ([fetchStockPrice],
    [updateAllPrices]), together with the part of the JavaScript run-time
    they rely on: JSON values, truthiness, property access, [Object.keys],
    [Array.prototype.sort], [parseFloat] and [parseInt].

    Conventions.
    - A JavaScript string is a [string]; one [ascii] stands for one code
      unit, so the strings of the model are those made of code units below
      256.  The Japanese messages of the source are kept as the bytes of
      the source file: they are only concatenated and compared.
    - A JavaScript Number is a [spec_float] read at binary64 (precision 53,
      [emax] 1024): zeros, infinities, NaN and [m * 2^e].
    - A JavaScript object obtained from [JSON.parse] is a [gmap] from its
      own keys to values.  [undefined] is [None] of [option json]. *)

From Stdlib Require Import ZArith QArith String Ascii List Lia.
From Stdlib Require Import Floats.SpecFloat.
From stdpp Require Import base option list sorting gmap strings pretty.

Local Open Scope Z_scope.

(** ** The JavaScript run-time *)

Module JS.

(** Numbers: binary64. *)
Definition Number : Type := spec_float.
Definition prec : Z := 53.
Definition emax : Z := 1024.
Definition NaN : Number := S754_nan.

(** The Number for an integer (round to nearest, ties to even). *)
Definition Number_of_Z (z : Z) : Number := binary_normalize prec emax z 0 false.

(** The Number for the ratio [n / d] of two positive integers, with the
    sign [neg]. *)
Definition Number_of_ratio (neg : bool) (n d : positive) : Number :=
  SFdiv prec emax (S754_finite neg n 0) (S754_finite false d 0).

(** The rational a finite Number denotes exactly. *)
Definition Number_value (x : Number) : option Q :=
  match x with
  | S754_zero _ => Some 0%Q
  | S754_finite s m e =>
      Some ((if s then - inject_Z (Z.pos m) else inject_Z (Z.pos m)) * 2 ^ e)%Q
  | S754_infinity _ | S754_nan => None
  end.

#[warnings="-register-all"] Inductive json : Type :=
| JNull
| JBool (b : bool)
| JNum (x : Number)
| JStr (s : string)
| JArr (items : list json)
| JObj (props : gmap string json).

(** A value: [None] is [undefined]. *)
Definition jsval : Type := option json.
Definition undefined : jsval := None.

(** Error objects: the constructor and the [message] property. *)
Inductive error_class : Type := Error | TypeError | SyntaxError | DOMException.

Record js_error : Type := new { class : error_class; message : string }.

Inductive result (A : Type) : Type :=
| Ok (a : A)
| Throw (e : js_error).
Arguments Ok {A} a.
Arguments Throw {A} e.

Definition rbind {A B} (r : result A) (k : A → result B) : result B :=
  match r with
  | Ok a => k a
  | Throw e => Throw e
  end.

#[global] Instance result_ret : MRet result := @Ok.
#[global] Instance result_bind : MBind result := λ A B k r, rbind r k.

#[global] Instance error_class_eq_dec : EqDecision error_class.
Proof. solve_decision. Defined.
#[global] Instance js_error_eq_dec : EqDecision js_error.
Proof. solve_decision. Defined.

(** The part of the host that the source leaves to the platform and to
    the build: [Number::toString] and the environment variable
    [process.env.NEXT_PUBLIC_ALPHA_VANTAGE_API_KEY] (absent: [None]). *)
Class Host : Type := {
  NumberToString : Number → string;
  NEXT_PUBLIC_ALPHA_VANTAGE_API_KEY : option string
}.

(** ToBoolean. *)
Definition truthy (v : jsval) : bool :=
  match v with
  | None | Some JNull => false
  | Some (JBool b) => b
  | Some (JNum (S754_zero _)) | Some (JNum S754_nan) => false
  | Some (JNum _) => true
  | Some (JStr s) => negb (String.eqb s "")
  | Some (JArr _) | Some (JObj _) => true
  end.

(** Decimal digits of an array index. *)
Definition index_key (i : nat) : string := pretty i.

Definition digit_value (radix : N) (c : ascii) : option N :=
  let n := N_of_ascii c in
  let d := (if (48 <=? n) && (n <=? 57) then n - 48
            else if (97 <=? n) && (n <=? 122) then n - 87
            else if (65 <=? n) && (n <=? 90) then n - 55
            else radix)%N in
  if (d <? radix)%N then Some d else None.

(** The longest prefix of digits in [radix]: its value continuing from
    [acc], the number of digits read after [n], and the rest. *)
Fixpoint scan_digits (radix : N) (s : string) (acc : N) (n : nat) : N * nat * string :=
  match s with
  | String c r =>
      match digit_value radix c with
      | Some d => scan_digits radix r (radix * acc + d)%N (S n)
      | None => (acc, n, s)
      end
  | EmptyString => (acc, n, s)
  end.

(** The index a property key denotes, when it is the canonical decimal
    form of one ("0", "1", "10", but not "01" or "+1"). *)
Definition key_index (key : string) : option nat :=
  let '(v, _, _) := scan_digits 10 key 0 0 in
  if decide (index_key (N.to_nat v) = key) then Some (N.to_nat v) else None.

Definition cannot_read (base key : string) : js_error :=
  new TypeError ("Cannot read properties of " +:+ base +:+ " (reading '" +:+ key +:+ "')").

Definition string_at (s : string) (i : nat) : jsval :=
  match String.get i s with
  | Some c => Some (JStr (String c EmptyString))
  | None => undefined
  end.

(** [base[key]] for the own properties of a value.  Reading a property
    of [undefined] or [null] throws a TypeError (worded as V8 does).
    Members inherited from a prototype are not modelled: the keys the
    source reads are its string constants, the own keys returned by
    [Object.keys] and "undefined", none of which names one. *)
Definition Get (base : jsval) (key : string) : result jsval :=
  match base with
  | None => Throw (cannot_read "undefined" key)
  | Some JNull => Throw (cannot_read "null" key)
  | Some (JBool _) | Some (JNum _) => Ok undefined
  | Some (JStr s) =>
      if decide (key = "length") then Ok (Some (JNum (Number_of_Z (Z.of_nat (String.length s)))))
      else Ok (i ← key_index key; string_at s i)
  | Some (JArr items) =>
      if decide (key = "length") then Ok (Some (JNum (Number_of_Z (Z.of_nat (length items)))))
      else Ok (i ← key_index key; items !! i)
  | Some (JObj props) => Ok (props !! key)
  end.

(** [Object.keys].  For an object the keys come in the enumeration order
    of the map; the one caller sorts them, and the keys of an object are
    pairwise distinct, so the order they come in does not matter. *)
Definition Object_keys (v : jsval) : result (list string) :=
  match v with
  | None | Some JNull =>
      Throw (new TypeError "Cannot convert undefined or null to object")
  | Some (JBool _) | Some (JNum _) => Ok []
  | Some (JStr s) => Ok (index_key <$> seq 0 (String.length s))
  | Some (JArr items) => Ok (index_key <$> seq 0 (length items))
  | Some (JObj props) => Ok (map_to_list props).*1
  end.

(** [Array.prototype.sort] without a comparator, on an array of strings:
    ascending in the order of code units. *)
Definition Array_sort (l : list string) : list string := merge_sort String.le l.

Definition Array_reverse (l : list string) : list string := reverse l.

(** ** Conversion to string and the numeric parsers *)

Definition not_primitive : js_error :=
  new TypeError "Cannot convert object to primitive value".

Section ToString.
Context `{Host}.

(** ToString of a JSON value.  An array is joined with commas, [null]
    elements giving the empty string.  A plain object gives
    "[object Object]" through [Object.prototype.toString], unless an own
    "toString" property (never callable in parsed JSON) shadows it:
    then [valueOf] is tried, yields no primitive, and a TypeError is
    thrown. *)
Fixpoint ToString (v : json) : result string :=
  match v with
  | JNull => Ok "null"
  | JBool b => Ok (if b then "true" else "false")
  | JNum x => Ok (NumberToString x)
  | JStr s => Ok s
  | JArr items =>
      (fix join (l : list json) : result string :=
         match l with
         | [] => Ok ""
         | x :: l' =>
             rbind (match x with JNull => Ok "" | _ => ToString x end) (λ sx,
             match l' with
             | [] => Ok sx
             | _ => rbind (join l') (λ sl, Ok (sx +:+ "," +:+ sl))
             end)
         end) items
  | JObj props =>
      if decide (is_Some (props !! "toString")) then Throw not_primitive
      else Ok "[object Object]"
  end.

Definition ToString_val (v : jsval) : result string :=
  match v with
  | None => Ok "undefined"
  | Some j => ToString j
  end.
End ToString.

(** StrWhiteSpaceChar, among the code units below 256. *)
Definition is_StrWhiteSpaceChar (c : ascii) : bool :=
  match c with
  | "009" | "010" | "011" | "012" | "013" | " " | "160" => true
  | _ => false
  end%char.

(** TrimString(s, start). *)
Fixpoint trim_start (s : string) : string :=
  match s with
  | String c r => if is_StrWhiteSpaceChar c then trim_start r else s
  | EmptyString => s
  end.

(** What the longest prefix that is a StrDecimalLiteral denotes: an
    infinity, or [digits * 10^exp10], with its sign. *)
Inductive StrDecimalLiteral : Type :=
| LitInfinity (neg : bool)
| LitDecimal (neg : bool) (digits : N) (exp10 : Z).

(** ExponentPart, when one follows: [e] or [E], an optional sign and at
    least one digit; otherwise the literal ends before it. *)
Definition scan_exponent (s : string) : Z :=
  match s with
  | String c r =>
      if (Ascii.eqb c "e" || Ascii.eqb c "E")%char then
        let '(neg, r') :=
          match r with
          | String "+" r' => (false, r')
          | String "-" r' => (true, r')
          | _ => (false, r)
          end in
        let '(v, n, _) := scan_digits 10 r' 0 0 in
        if (n =? 0)%nat then 0 else if neg then - Z.of_N v else Z.of_N v
      else 0
  | EmptyString => 0
  end.

Definition scan_unsigned (neg : bool) (s : string) : option StrDecimalLiteral :=
  if String.prefix "Infinity" s then Some (LitInfinity neg) else
  let '(i, ni, r1) := scan_digits 10 s 0 0 in
  match r1 with
  | String "." r2 =>
      let '(f, nf, r3) := scan_digits 10 r2 i 0 in
      if (ni + nf =? 0)%nat then None
      else Some (LitDecimal neg f (scan_exponent r3 - Z.of_nat nf))
  | _ =>
      if (ni =? 0)%nat then None else Some (LitDecimal neg i (scan_exponent r1))
  end.

Definition scan_StrDecimalLiteral (s : string) : option StrDecimalLiteral :=
  match s with
  | String "+" r => scan_unsigned false r
  | String "-" r => scan_unsigned true r
  | _ => scan_unsigned false s
  end.

(** The mathematical value of a decimal literal. *)
Definition MV (lit : StrDecimalLiteral) : option Q :=
  match lit with
  | LitInfinity _ => None
  | LitDecimal neg d e =>
      Some ((if neg then - inject_Z (Z.of_N d) else inject_Z (Z.of_N d)) * 10 ^ e)%Q
  end.

(** StringNumericValue: the Number nearest to the mathematical value. *)
Definition StringNumericValue (lit : StrDecimalLiteral) : Number :=
  match lit with
  | LitInfinity neg => S754_infinity neg
  | LitDecimal neg N0 _ => S754_zero neg
  | LitDecimal neg (Npos d) e =>
      match e with
      | Z.neg k => Number_of_ratio neg d (10 ^ k)%positive
      | _ => binary_normalize prec emax
               (if neg then Z.neg (d * Z.to_pos (10 ^ e)) else Z.pos (d * Z.to_pos (10 ^ e)))
               0 false
      end
  end.

Definition parseFloat_string (s : string) : Number :=
  match scan_StrDecimalLiteral (trim_start s) with
  | Some lit => StringNumericValue lit
  | None => NaN
  end.

(** [parseInt] with no radix: radix 16 after a "0x" or "0X" prefix, radix
    10 otherwise. *)
Definition parseInt_string (s : string) : Number :=
  let S0 := trim_start s in
  let '(neg, S1) :=
    match S0 with
    | String "-" r => (true, r)
    | String "+" r => (false, r)
    | _ => (false, S0)
    end in
  let '(R, S2) :=
    match S1 with
    | String "0" (String x r) =>
        if (Ascii.eqb x "x" || Ascii.eqb x "X")%char then (16%N, r) else (10%N, S1)
    | _ => (10%N, S1)
    end in
  let '(v, n, _) := scan_digits R S2 0 0 in
  if (n =? 0)%nat then NaN
  else match v with
       | N0 => S754_zero neg
       | Npos p => Number_of_Z (if neg then Z.neg p else Z.pos p)
       end.

Definition parseFloat `{Host} (v : jsval) : result Number :=
  rbind (ToString_val v) (λ s, Ok (parseFloat_string s)).

Definition parseInt `{Host} (v : jsval) : result Number :=
  rbind (ToString_val v) (λ s, Ok (parseInt_string s)).

End JS.

Import JS.

(** ** Interaction with the outside: the network, timers and the console *)

(** A [Response]: what [response.json()] settles with. *)
Record Response : Type := { Response_json : result json }.

(** A computation that may await a [fetch], await a timer or write to the
    console before it returns. *)
Inductive io (A : Type) : Type :=
| Return (a : A)
| Fetch (url : string) (k : result Response → io A)
| ConsoleError (label : string) (e : js_error) (k : io A)
| SetTimeout (ms : Z) (k : io A).
Arguments Return {A} a.
Arguments Fetch {A} url k.
Arguments ConsoleError {A} label e k.
Arguments SetTimeout {A} ms k.

Fixpoint io_bind {A B} (p : io A) (f : A → io B) : io B :=
  match p with
  | Return a => f a
  | Fetch url k => Fetch url (λ r, io_bind (k r) f)
  | ConsoleError label e k => ConsoleError label e (io_bind k f)
  | SetTimeout ms k => SetTimeout ms (io_bind k f)
  end.

(** An [async] function: it settles with a value or with a thrown error. *)
Definition async (A : Type) : Type := io (result A).

#[global] Instance async_ret : MRet async := λ A a, Return (Ok a).
#[global] Instance async_bind : MBind async := λ A B f m,
  io_bind m (λ r, match r with Ok a => f a | Throw e => Return (Throw e) end).

Definition throw {A} (e : js_error) : async A := Return (Throw e).
Definition settle {A} (r : result A) : async A := Return r.
Definition fetch (url : string) : async Response := Fetch url Return.
Definition console_error (label : string) (e : js_error) : async unit :=
  ConsoleError label e (Return (Ok tt)).
Definition try_catch {A} (body : async A) (handler : js_error → async A) : async A :=
  io_bind body (λ r, match r with Ok a => Return (Ok a) | Throw e => handler e end).

(** ** The client *)

Record Quote : Type := {
  date : option string;
  open : Number;
  high : Number;
  low : Number;
  close : Number;
  volume : Number
}.

Definition ALPHA_VANTAGE_API_KEY `{Host} : option string := NEXT_PUBLIC_ALPHA_VANTAGE_API_KEY.
Definition ALPHA_VANTAGE_BASE_URL : string := "https://www.alphavantage.co/query".

Module AlphaVantageAPI.
Section Client.
Context `{Host}.

Definition request_url (symbol : string) : string :=
  ALPHA_VANTAGE_BASE_URL +:+ "?function=TIME_SERIES_DAILY&symbol=" +:+ symbol
    +:+ "&apikey=" +:+ default "undefined" ALPHA_VANTAGE_API_KEY.

Definition getDailyData (symbol : string) : async json :=
  try_catch
    (response ← fetch (request_url symbol);
     data ← settle (Response_json response);
     error_message ← settle (Get (Some data) "Error Message");
     if truthy error_message then
       throw (new Error "銘柄が見つかりません")
     else
       note ← settle (Get (Some data) "Note");
       if truthy note then
         throw (new Error "API制限に達しました。しばらく待ってから再試行してください。")
       else
         mret data)
    (λ error,
       console_error "API Error:" error;;
       throw error).

Definition parseStockData (apiData : jsval) : result (option Quote) :=
  timeSeries ← Get apiData "Time Series (Daily)";
  if negb (truthy timeSeries) then mret None else
  keys ← Object_keys timeSeries;
  let dates := Array_reverse (Array_sort keys) in
  let latestDate := head dates in
  latestData ← Get timeSeries (default "undefined" latestDate);
  open ← Get latestData "1. open" ≫= parseFloat;
  high ← Get latestData "2. high" ≫= parseFloat;
  low ← Get latestData "3. low" ≫= parseFloat;
  close ← Get latestData "4. close" ≫= parseFloat;
  volume ← Get latestData "5. volume" ≫= parseInt;
  mret (Some {| date := latestDate; open := open; high := high; low := low;
                close := close; volume := volume |}).
End Client.
End AlphaVantageAPI.

(** ** The component state and its handlers *)

Record AppState : Type := {
  stockPrices : gmap string Quote;
  isLoading : bool;
  apiStatus : string
}.

(** A handler: an async computation over the component state.  A thrown
    error leaves the state as it was when it was thrown. *)
Definition act (A : Type) : Type := AppState → io (result A * AppState).

#[global] Instance act_ret : MRet act := λ A a st, Return (Ok a, st).
#[global] Instance act_bind : MBind act := λ A B f m st,
  io_bind (m st) (λ '(r, st'),
    match r with
    | Ok a => f a st'
    | Throw e => Return (Throw e, st')
    end).

Definition await {A} (m : async A) : act A := λ st, io_bind m (λ r, Return (r, st)).
Definition lift {A} (r : result A) : act A := λ st, Return (r, st).

Definition setStockPrices (f : gmap string Quote → gmap string Quote) : act unit :=
  λ st, Return (Ok tt, {| stockPrices := f (stockPrices st);
                          isLoading := isLoading st; apiStatus := apiStatus st |}).
Definition setIsLoading (b : bool) : act unit :=
  λ st, Return (Ok tt, {| stockPrices := stockPrices st;
                          isLoading := b; apiStatus := apiStatus st |}).
Definition setApiStatus (s : string) : act unit :=
  λ st, Return (Ok tt, {| stockPrices := stockPrices st;
                          isLoading := isLoading st; apiStatus := s |}).

(** [try { body } catch (error) { handler } finally { finalizer }]. *)
Definition try_catch_finally {A} (body : act A) (handler : js_error → act A)
    (finalizer : act unit) : act A := λ st,
  io_bind (body st) (λ '(r, st1),
  io_bind (match r with
           | Ok a => Return (Ok a, st1)
           | Throw e => handler e st1
           end) (λ '(r2, st2),
  io_bind (finalizer st2) (λ '(r3, st3),
    match r3 with
    | Ok _ => Return (r2, st3)
    | Throw e => Return (Throw e, st3)
    end))).

(** [await new Promise(resolve => setTimeout(resolve, ms))]. *)
Definition sleep (ms : Z) : act unit := λ st, SetTimeout ms (Return (Ok tt, st)).

(** [for (const x of l) { body }]. *)
Fixpoint for_of {A} (l : list A) (body : A → act unit) : act unit :=
  match l with
  | [] => mret tt
  | x :: l' => body x;; for_of l' body
  end.

Section StockPortfolioApp.
Context `{Host}.

Definition fetchStockPrice (symbol : string) : act unit :=
  setIsLoading true;;
  setApiStatus (symbol +:+ " のデータを取得中...");;
  try_catch_finally
    (data ← await (AlphaVantageAPI.getDailyData symbol);
     parsedData ← lift (AlphaVantageAPI.parseStockData (Some data));
     match parsedData with
     | Some quote =>
         setStockPrices (λ prev, <[symbol := quote]> prev);;
         setApiStatus (symbol +:+ " のデータを取得しました")
     | None => mret tt
     end)
    (λ error, setApiStatus ("エラー: " +:+ message error))
    (setIsLoading false).

Definition updateAllPrices : act unit :=
  let symbols := ["AAPL"; "MSFT"; "7203.T"; "9432.T"] in
  for_of symbols (λ symbol,
    fetchStockPrice symbol;;
    sleep 1000).
End StockPortfolioApp.

(** ** Running a computation in a world *)

(** The world decides what each request settles with and how long it
    takes, and by how much each timer fires late (request and timer
    numbers count from 0). *)
Record World : Type := {
  respond : nat → string → result Response;
  latency : nat → Z;
  timer_lag : nat → Z
}.

Record Clock : Type := { now : Z; requests : nat; timers : nat }.

Inductive observation : Type :=
| Requested (t : Z) (url : string)
| Settled (t : Z) (url : string) (r : result Response)
| Logged (label : string) (e : js_error)
| TimerSet (t : Z) (ms : Z)
| TimerFired (t : Z).

Fixpoint run {A} (w : World) (p : io A) (c : Clock) : A * Clock * list observation :=
  match p with
  | Return a => (a, c, [])
  | Fetch url k =>
      let r := respond w (requests c) url in
      let t := now c + latency w (requests c) in
      let '(a, c', log) :=
        run w (k r) {| now := t; requests := S (requests c); timers := timers c |} in
      (a, c', Requested (now c) url :: Settled t url r :: log)
  | ConsoleError label e k =>
      let '(a, c', log) := run w k c in
      (a, c', Logged label e :: log)
  | SetTimeout ms k =>
      let t := now c + ms + timer_lag w (timers c) in
      let '(a, c', log) :=
        run w k {| now := t; requests := requests c; timers := S (timers c) |} in
      (a, c', TimerSet (now c) ms :: TimerFired t :: log)
  end.

Module Sample.
(** A host for the closed examples: the key is absent, and
    [Number::toString] is the decimal numeral on the integers below 10^21,
    with "0", "Infinity", "-Infinity" and "NaN".  On the other Numbers it
    is a stand-in: no example converts one. *)
Definition number_to_string (x : Number) : string :=
  match x with
  | S754_zero _ => "0"
  | S754_infinity s => if s then "-Infinity" else "Infinity"
  | S754_nan => "NaN"
  | S754_finite s m e =>
      let integer :=
        if 0 <=? e then Some (Z.pos m * 2 ^ e)
        else if Z.pos m mod 2 ^ (- e) =? 0 then Some (Z.pos m / 2 ^ (- e))
        else None in
      match integer with
      | Some z => if z <? 10 ^ 21 then (if s then "-" else "") +:+ pretty z else "NaN"
      | None => "NaN"
      end
  end.

#[local] Instance host : Host :=
  {| NumberToString := number_to_string; NEXT_PUBLIC_ALPHA_VANTAGE_API_KEY := None |}.

Definition body (data : json) : result Response := Ok {| Response_json := Ok data |}.

(** A world where every request settles after 120 ms with [r] and every
    timer fires 4 ms late. *)
Definition always (r : result Response) : World :=
  {| respond := λ _ _, r; latency := λ _, 120; timer_lag := λ _, 4 |}.

Definition start : Clock := {| now := 0; requests := 0; timers := 0 |}.
Definition idle : AppState := {| stockPrices := ∅; isLoading := false; apiStatus := "" |}.
End Sample.

(** ** Vocabulary of the properties *)

(** What a run settled with, and what it left to observe. *)
Definition settled {A} (x : A * Clock * list observation) : A := x.1.1.
Definition trace {A} (x : A * Clock * list observation) : list observation := x.2.

(** The decision of [getDailyData] once the request has settled with [r]. *)
Definition daily_data (r : result Response) : result json :=
  response ← r;
  data ← Response_json response;
  error_message ← Get (Some data) "Error Message";
  if truthy error_message then Throw (new Error "銘柄が見つかりません")
  else
    note ← Get (Some data) "Note";
    if truthy note then
      Throw (new Error "API制限に達しました。しばらく待ってから再試行してください。")
    else Ok data.

(** The state [fetchStockPrice] leaves, by what fetching and parsing gave. *)
Definition state_after (symbol : string) (st : AppState)
    (outcome : result (option Quote)) : AppState :=
  match outcome with
  | Ok (Some quote) =>
      {| stockPrices := <[symbol := quote]> (stockPrices st); isLoading := false;
         apiStatus := symbol +:+ " のデータを取得しました" |}
  | Ok None =>
      {| stockPrices := stockPrices st; isLoading := false;
         apiStatus := symbol +:+ " のデータを取得中..." |}
  | Throw e =>
      {| stockPrices := stockPrices st; isLoading := false;
         apiStatus := "エラー: " +:+ message e |}
  end.

(** The two errors [getDailyData] constructs itself (lines 22 and 26). *)
Definition NotFoundError : js_error := new Error "銘柄が見つかりません".
Definition RateLimitedError : js_error :=
  new Error "API制限に達しました。しばらく待ってから再試行してください。".

(** How a handler completed, and the state it left. *)
Definition completion {A} (x : result A * AppState * Clock * list observation) : result A :=
  (settled x).1.
Definition final_state {A} (x : result A * AppState * Clock * list observation) : AppState :=
  (settled x).2.

(** The observations that are lines on the console. *)
Definition is_logged (o : observation) : bool :=
  match o with
  | Logged _ _ => true
  | _ => false
  end.

(** [d] is the greatest string of [keys], in the order of code units. *)
Definition greatest_in (d : string) (keys : list string) : Prop :=
  d ∈ keys ∧ ∀ k, k ∈ keys → (k ≤ d)%string.

(** The Number [x] denotes the rational [q] exactly. *)
Definition exactly (x : Number) (q : Q) : Prop :=
  match Number_value x with
  | Some v => (v == q)%Q
  | None => False
  end.

(** The decimal literal [parseFloat] reads off [s] denotes the rational [q]. *)
Definition denotes (s : string) (q : Q) : Prop :=
  match scan_StrDecimalLiteral (trim_start s) ≫= MV with
  | Some v => (v == q)%Q
  | None => False
  end.

(** The entry of the parsing example of the specification. *)
Definition sample_entry : gmap string json :=
  <["1. open" := JStr "150.00"]> (<["2. high" := JStr "152.00"]>
  (<["3. low" := JStr "149.50"]> (<["4. close" := JStr "151.25"]>
  {["5. volume" := JStr "1000000"]}))).

(** The URLs of the requests of a trace, in the order they were issued. *)
Definition requested_urls (log : list observation) : list string :=
  omap (λ o, match o with Requested _ url => Some url | _ => None end) log.

(** The times at which the requests of a trace were issued. *)
Definition issue_times (log : list observation) : list Z :=
  omap (λ o, match o with Requested t _ => Some t | _ => None end) log.

(** No request is issued while another is outstanding: [outstanding] tells
    whether a request is awaiting its settlement. *)
Fixpoint one_at_a_time (outstanding : bool) (log : list observation) : bool :=
  match log with
  | [] => true
  | Requested _ _ :: log' => negb outstanding && one_at_a_time true log'
  | Settled _ _ _ :: log' => outstanding && one_at_a_time false log'
  | _ :: log' => one_at_a_time outstanding log'
  end.

(** Every request that follows a settlement is issued at least [gap]
    milliseconds after it: [last_settled] is the time of the latest
    settlement so far. *)
Fixpoint issued_after_settlement (gap : Z) (last_settled : option Z)
    (log : list observation) : Prop :=
  match log with
  | [] => True
  | Requested t _ :: log' =>
      match last_settled with
      | Some s => s + gap ≤ t
      | None => True
      end ∧ issued_after_settlement gap last_settled log'
  | Settled t _ _ :: log' => issued_after_settlement gap (Some t) log'
  | _ :: log' => issued_after_settlement gap last_settled log'
  end.

(** Consecutive times are at least [gap] apart. *)
Fixpoint spaced (gap : Z) (times : list Z) : Prop :=
  match times with
  | t1 :: (t2 :: _) as rest => t1 + gap ≤ t2 ∧ spaced gap rest
  | _ => True
  end.

Section Vocabulary.
Context `{Host}.
Import AlphaVantageAPI.

(** What [parseStockData] builds from the latest date and its entry
    (lines 45 to 52). *)
Definition quote_of_entry (latestDate : option string) (latestData : jsval)
    : result (option Quote) :=
  open ← Get latestData "1. open" ≫= parseFloat;
  high ← Get latestData "2. high" ≫= parseFloat;
  low ← Get latestData "3. low" ≫= parseFloat;
  close ← Get latestData "4. close" ≫= parseFloat;
  volume ← Get latestData "5. volume" ≫= parseInt;
  mret (Some {| date := latestDate; open := open; high := high; low := low;
                close := close; volume := volume |}).

(** One turn of the loop of [updateAllPrices], started at clock [c]. *)
Definition turn_log (w : World) (c : Clock) (symbol : string) : list observation :=
  let url := request_url symbol in
  let r := respond w (requests c) url in
  let t := now c + latency w (requests c) in
  Requested (now c) url :: Settled t url r ::
    match daily_data r with
    | Ok _ => []
    | Throw e => [Logged "API Error:" e]
    end ++ [TimerSet t 1000; TimerFired (t + 1000 + timer_lag w (timers c))].

Definition turn_clock (w : World) (c : Clock) : Clock :=
  {| now := now c + latency w (requests c) + 1000 + timer_lag w (timers c);
     requests := S (requests c); timers := S (timers c) |}.

Definition turn_state (w : World) (c : Clock) (symbol : string) (st : AppState) : AppState :=
  state_after symbol st
    (daily_data (respond w (requests c) (request_url symbol)) ≫=
       λ data, parseStockData (Some data)).

(** One turn per symbol of the list, each started when the one before
    ended. *)
Fixpoint turns_log (w : World) (c : Clock) (symbols : list string) : list observation :=
  match symbols with
  | [] => []
  | symbol :: symbols' => turn_log w c symbol ++ turns_log w (turn_clock w c) symbols'
  end.

End Vocabulary.

(** ** The rest of the page: what it shows and its other handlers *)

(** The clock a run ended at. *)
Definition final_clock {A} (x : A * Clock * list observation) : Clock := x.1.2.

(** The names of the members of [Object.prototype], which a plain object
    such as the cache inherits. *)
Definition Object_prototype_keys : list string :=
  ["constructor"; "__defineGetter__"; "__defineSetter__"; "hasOwnProperty";
   "__lookupGetter__"; "__lookupSetter__"; "isPrototypeOf"; "propertyIsEnumerable";
   "toString"; "valueOf"; "__proto__"; "toLocaleString"].

(** [updatePriceFromAPI] of [TotalInvestmentSection] (lines 311 to 316),
    over the cache it closes over.  [stockPrices[symbol]] is the own entry
    when there is one (a Quote, truthy); otherwise, for a name of
    [Object.prototype], the inherited member (a function or an object,
    truthy, with no [close]: the result is [undefined], [None]); otherwise
    [undefined], and the base price is returned. *)
Definition updatePriceFromAPI (stockPrices : gmap string Quote)
    (basePrice : Number) (symbol : string) : option Number :=
  match stockPrices !! symbol with
  | Some quote => Some (close quote)
  | None =>
      if decide (symbol ∈ Object_prototype_keys) then None else Some basePrice
  end.

(** Whether the panel of fetched data is rendered (line 165):
    [Object.keys(stockPrices).length > 0]. *)
Definition fetched_data_shown (stockPrices : gmap string Quote) : bool :=
  (0 <? length (map_to_list stockPrices).*1)%nat.

(** The state of the three collapsible sections (lines 64 to 68) and its
    keys, [keyof typeof expandedSections]. *)
Record ExpandedSections : Type := { domestic : bool; us : bool; fund : bool }.

Inductive SectionKey : Type := key_domestic | key_us | key_fund.

Definition initial_sections : ExpandedSections :=
  {| domestic := false; us := false; fund := false |}.

(** [prev[section]]. *)
Definition section_get (section : SectionKey) (prev : ExpandedSections) : bool :=
  match section with
  | key_domestic => domestic prev
  | key_us => us prev
  | key_fund => fund prev
  end.

(** [{...prev, [section]: b}]. *)
Definition section_set (section : SectionKey) (b : bool) (prev : ExpandedSections)
    : ExpandedSections :=
  match section with
  | key_domestic => {| domestic := b; us := us prev; fund := fund prev |}
  | key_us => {| domestic := domestic prev; us := b; fund := fund prev |}
  | key_fund => {| domestic := domestic prev; us := us prev; fund := b |}
  end.

(** [toggleSection] (lines 107 to 112), as the update it passes to
    [setExpandedSections]. *)
Definition toggleSection (section : SectionKey) (prev : ExpandedSections)
    : ExpandedSections :=
  section_set section (negb (section_get section prev)) prev.


(** TrimString(s, end) and [String.prototype.trim]. *)
Fixpoint trim_end (s : string) : string :=
  match s with
  | String c r =>
      let r' := trim_end r in
      if is_StrWhiteSpaceChar c && String.eqb r' "" then "" else String c r'
  | EmptyString => ""
  end.

Definition String_trim (s : string) : string := trim_end (trim_start s).

(** Whether a string is made of white space only (the empty string is). *)
Fixpoint all_whitespace (s : string) : bool :=
  match s with
  | String c r => is_StrWhiteSpaceChar c && all_whitespace r
  | EmptyString => true
  end.

(** [handleSearch] of [Header] (lines 209 to 215): the search term it
    leaves and the handler it starts, if any.  [toUpperCase] is
    [String.prototype.toUpperCase] and [onStockSearch] the prop of that
    name ([None] when it is not passed). *)
Definition handleSearch (toUpperCase : string → string)
    (onStockSearch : option (string → act unit)) (searchTerm : string)
    : string * option (act unit) :=
  if negb (String.eqb (String_trim searchTerm) "") then
    match onStockSearch with
    | Some search => ("", Some (search (toUpperCase (String_trim searchTerm))))
    | None => (searchTerm, None)
    end
  else (searchTerm, None).

(** The screening filters of [SimulationSection] (lines 797 to 809), the
    update of [handleFilterChange] (lines 827 to 832) and the state
    [resetFilters] sets (lines 834 to 848). *)
Definition filter_keys : list string :=
  ["sector"; "minPrice"; "maxPrice"; "minYield"; "maxYield"; "minPer"; "maxPer";
   "minPbr"; "maxPbr"; "minMarketCap"; "maxMarketCap"].

Definition initial_filters : gmap string string :=
  list_to_map ((λ key, (key, "")) <$> filter_keys).

Definition handleFilterChange (key value : string) (prev : gmap string string)
    : gmap string string :=
  <[key := value]> prev.

Definition resetFilters (prev : gmap string string) : gmap string string :=
  initial_filters.

(** The filters after the changes [edits], applied in order. *)
Definition apply_edits (edits : list (string * string)) (filters : gmap string string)
    : gmap string string :=
  foldl (λ prev edit, handleFilterChange edit.1 edit.2 prev) filters edits.

(** The value the latest edit of [key] wrote, if [key] was edited. *)
Fixpoint last_edit (key : string) (edits : list (string * string)) : option string :=
  match edits with
  | [] => None
  | (key', value) :: edits' =>
      match last_edit key edits' with
      | Some later => Some later
      | None => if decide (key' = key) then Some value else None
      end
  end.

Section More_vocabulary.
Context `{Host}.
Import AlphaVantageAPI.

(** What the request numbered [n], made for [symbol], ends in: the Quote
    parsed, null, or the error thrown by [getDailyData] or
    [parseStockData]. *)
Definition fetch_outcome (w : World) (n : nat) (symbol : string) : result (option Quote) :=
  daily_data (respond w n (request_url symbol)) ≫= λ data, parseStockData (Some data).

(** The cache after a fetch for [symbol] that ended in [outcome]. *)
Definition cache_after (symbol : string) (outcome : result (option Quote))
    (cache : gmap string Quote) : gmap string Quote :=
  match outcome with
  | Ok (Some quote) => <[symbol := quote]> cache
  | _ => cache
  end.

(** The state, and the clock, after one turn per symbol of the list. *)
Fixpoint turns_state (w : World) (c : Clock) (symbols : list string) (st : AppState)
    : AppState :=
  match symbols with
  | [] => st
  | symbol :: symbols' =>
      turns_state w (turn_clock w c) symbols' (turn_state w c symbol st)
  end.

Fixpoint turns_clock (w : World) (c : Clock) (symbols : list string) : Clock :=
  match symbols with
  | [] => c
  | _ :: symbols' => turns_clock w (turn_clock w c) symbols'
  end.

(** A field of a daily entry as [parseStockData] reads it when the field
    is a string or is missing. *)
Definition field_number (parse : string → Number) (entry : gmap string json)
    (key : string) : Number :=
  match entry !! key with
  | Some (JStr s) => parse s
  | _ => NaN
  end.
End More_vocabulary.

(** ** Closed inputs for the examples *)

Module Examples.
Import AlphaVantageAPI Sample.
#[local] Existing Instance host.

Definition invalid_call : gmap string json :=
  {["Error Message" := JStr "Invalid API call."]}.
Definition empty_error_message : gmap string json :=
  {["Error Message" := JStr ""]}.
Definition throttled : gmap string json :=
  {["Note" := JStr "Thank you for using Alpha Vantage!"]}.
Definition invalid_and_throttled : gmap string json :=
  <["Error Message" := JStr "Invalid API call."]> throttled.
Definition information_only : gmap string json :=
  {["Information" := JStr "Please subscribe to a premium plan."]}.
Definition two_days : gmap string json :=
  <["2024-01-02" := JObj sample_entry]> {["2024-01-03" := JObj sample_entry]}.
Definition daily (series : gmap string json) : gmap string json :=
  {["Time Series (Daily)" := JObj series]}.
Definition failed_to_fetch : js_error := new TypeError "Failed to fetch".

Definition sample_quote : Quote :=
  {| date := Some "2024-01-03";
     open := parseFloat_string "150.00"; high := parseFloat_string "152.00";
     low := parseFloat_string "149.50"; close := parseFloat_string "151.25";
     volume := parseInt_string "1000000" |}.
End Examples.

Module More_examples.
Import Sample Examples.

(** A stand-in for [String.prototype.toUpperCase] that agrees with it on
    ASCII strings: the letters a to z become A to Z. *)
Definition to_upper_ascii_char (c : ascii) : ascii :=
  let n := N_of_ascii c in
  if ((97 <=? n) && (n <=? 122))%N then ascii_of_N (n - 32) else c.

Fixpoint to_upper_ascii (s : string) : string :=
  match s with
  | String c r => String (to_upper_ascii_char c) (to_upper_ascii r)
  | EmptyString => ""
  end.

(** A world where the first request settles with [r1] and every later one
    with [r2]. *)
Definition first_then (r1 r2 : result Response) : World :=
  {| respond := λ n _, match n with O => r1 | S _ => r2 end;
     latency := λ _, 120; timer_lag := λ _, 4 |}.

Definition entry_without_volume : gmap string json := delete "5. volume" sample_entry.

Definition one_day (entry : json) : gmap string json := {["2024-01-03" := entry]}.

Definition two_days_older_null : gmap string json :=
  <["2024-01-02" := JNull]> {["2024-01-03" := JObj sample_entry]}.

Definition some_edits : list (string * string) :=
  [("sector", "IT"); ("minPrice", "100"); ("sector", "Finance")].
End More_examples.

(** ** Properties *)

#[local] Arguments Get : simpl never.
#[local] Arguments truthy : simpl never.
#[local] Arguments AlphaVantageAPI.getDailyData : simpl never.
#[local] Arguments AlphaVantageAPI.parseStockData : simpl never.

Ltac unfold_async :=
  unfold mbind, mret, async_bind, async_ret, result_bind, result_ret,
    fetch, settle, throw, console_error in *.

Lemma run_io_bind {A B} (w : World) (p : io A) (f : A → io B) (c : Clock) :
  run w (io_bind p f) c =
    let '(a, c1, l1) := run w p c in
    let '(b, c2, l2) := run w (f a) c1 in
    (b, c2, l1 ++ l2).
Proof.
  revert c. induction p as [a|url k IH|label e k IH|ms k IH]; intros c; simpl.
  - by destruct (run w (f a) c) as [[b c2] l2].
  - rewrite IH.
    destruct (run w (k _) _) as [[a c1] l1].
    by destruct (run w (f a) c1) as [[b c2] l2].
  - rewrite IH.
    destruct (run w k c) as [[a c1] l1].
    by destruct (run w (f a) c1) as [[b c2] l2].
  - rewrite IH.
    destruct (run w k _) as [[a c1] l1].
    by destruct (run w (f a) c1) as [[b c2] l2].
Qed.

Section Client_facts.
Context `{Host}.

(** One call of [getDailyData]: one request, its settlement, and a line on
    the console exactly when the call fails. *)
Lemma run_getDailyData (w : World) (symbol : string) (c : Clock) :
  let url := AlphaVantageAPI.request_url symbol in
  let r := respond w (requests c) url in
  let t := now c + latency w (requests c) in
  run w (AlphaVantageAPI.getDailyData symbol) c =
    (daily_data r,
     {| now := t; requests := S (requests c); timers := timers c |},
     Requested (now c) url :: Settled t url r ::
       match daily_data r with
       | Ok _ => []
       | Throw e => [Logged "API Error:" e]
       end).
Proof.
  simpl. unfold AlphaVantageAPI.getDailyData, try_catch, daily_data.
  unfold_async; simpl.
  destruct (respond w (requests c) _) as [[[data|e]]|e]; simpl; try done.
  destruct (Get (Some data) "Error Message") as [em|e]; simpl; try done.
  destruct (truthy em); simpl; try done.
  destruct (Get (Some data) "Note") as [note|e]; simpl; try done.
  by destruct (truthy note).
Qed.

(** One call of [fetchStockPrice]: it settles normally, in the state
    [state_after] gives, after the one request of [getDailyData]. *)
Lemma run_fetchStockPrice (w : World) (symbol : string) (st : AppState) (c : Clock) :
  let url := AlphaVantageAPI.request_url symbol in
  let r := respond w (requests c) url in
  let t := now c + latency w (requests c) in
  let outcome := daily_data r ≫= λ data, AlphaVantageAPI.parseStockData (Some data) in
  run w (fetchStockPrice symbol st) c =
    (Ok tt, state_after symbol st outcome,
     {| now := t; requests := S (requests c); timers := timers c |},
     Requested (now c) url :: Settled t url r ::
       match daily_data r with
       | Ok _ => []
       | Throw e => [Logged "API Error:" e]
       end).
Proof.
  cbv zeta. unfold fetchStockPrice, try_catch_finally, await, lift.
  unfold mbind at 1 2 3 4, act_bind, setIsLoading, setApiStatus. cbn [io_bind].
  rewrite !run_io_bind, run_getDailyData.
  destruct (daily_data _) as [data|e]; cbn; [|done].
  by destruct (AlphaVantageAPI.parseStockData (Some data)) as [[q|]|e].
Qed.
End Client_facts.

Section Fetch_properties.
Context `{Host}.
Import AlphaVantageAPI.

Lemma daily_data_object (props : gmap string json) :
  daily_data (Ok {| Response_json := Ok (JObj props) |}) =
    if truthy (props !! "Error Message") then Throw NotFoundError
    else if truthy (props !! "Note") then Throw RateLimitedError
    else Ok (JObj props).
Proof. reflexivity. Qed.

Lemma settled_getDailyData (w : World) (symbol : string) (c : Clock) :
  settled (run w (getDailyData symbol) c) =
    daily_data (respond w (requests c) (request_url symbol)).
Proof. by rewrite run_getDailyData. Qed.

Lemma settled_fetchStockPrice (w : World) (symbol : string) (st : AppState) (c : Clock) :
  settled (run w (fetchStockPrice symbol st) c) =
    (Ok tt,
     state_after symbol st
       (daily_data (respond w (requests c) (request_url symbol)) ≫=
          λ data, parseStockData (Some data))).
Proof. by rewrite run_fetchStockPrice. Qed.

Lemma trace_fetchStockPrice (w : World) (symbol : string) (st : AppState) (c : Clock) :
  trace (run w (fetchStockPrice symbol st) c) =
    trace (run w (getDailyData symbol) c).
Proof. by rewrite run_fetchStockPrice, run_getDailyData. Qed.

(** C1, as amended: when the response object carries a truthy
    'Error Message' (any non-empty string, for one), [getDailyData] throws
    the symbol-not-found error, and [fetchStockPrice] leaves the quote
    cache as it was and shows that error. *)
Theorem getDailyData_error_message
    (w : World) (c : Clock) (symbol : string) (st : AppState)
    (props : gmap string json) (v : json) :
  respond w (requests c) (request_url symbol) = Ok {| Response_json := Ok (JObj props) |} →
  props !! "Error Message" = Some v →
  truthy (Some v) = true →
  settled (run w (getDailyData symbol) c) = Throw NotFoundError ∧
  completion (run w (fetchStockPrice symbol st) c) = Ok tt ∧
  stockPrices (final_state (run w (fetchStockPrice symbol st) c)) = stockPrices st ∧
  apiStatus (final_state (run w (fetchStockPrice symbol st) c)) =
    "エラー: " +:+ message NotFoundError.
Proof.
  intros Hr Hv Ht. unfold completion, final_state.
  rewrite settled_getDailyData, settled_fetchStockPrice, Hr, daily_data_object, Hv, Ht.
  done.
Qed.

(** C2, as amended: when the response object carries a truthy 'Note' and
    no truthy 'Error Message', [getDailyData] throws the rate-limit error,
    which differs from the symbol-not-found error (by its message). *)
Theorem getDailyData_note
    (w : World) (c : Clock) (symbol : string)
    (props : gmap string json) (v : json) :
  respond w (requests c) (request_url symbol) = Ok {| Response_json := Ok (JObj props) |} →
  props !! "Note" = Some v →
  truthy (Some v) = true →
  truthy (props !! "Error Message") = false →
  settled (run w (getDailyData symbol) c) = Throw RateLimitedError ∧
  RateLimitedError ≠ NotFoundError.
Proof.
  intros Hr Hv Ht He.
  rewrite settled_getDailyData, Hr, daily_data_object, He, Hv, Ht.
  done.
Qed.

Lemma parseStockData_no_series (props : gmap string json) :
  props !! "Time Series (Daily)" = None →
  parseStockData (Some (JObj props)) = Ok None.
Proof. intros Hts. unfold parseStockData, Get. by rewrite Hts. Qed.

(** C5: a response object with no 'Time Series (Daily)', no
    'Error Message' and no 'Note' makes the fetch a silent no-op:
    [parseStockData] returns null, [fetchStockPrice] settles normally with
    the cache as it was, the status left at the progress message (no
    error shown), and nothing is written to the console. *)
Theorem fetch_without_series_is_silent
    (w : World) (c : Clock) (symbol : string) (st : AppState)
    (props : gmap string json) :
  respond w (requests c) (request_url symbol) = Ok {| Response_json := Ok (JObj props) |} →
  props !! "Time Series (Daily)" = None →
  props !! "Error Message" = None →
  props !! "Note" = None →
  parseStockData (Some (JObj props)) = Ok None ∧
  settled (run w (fetchStockPrice symbol st) c) =
    (Ok tt, {| stockPrices := stockPrices st; isLoading := false;
               apiStatus := symbol +:+ " のデータを取得中..." |}) ∧
  List.filter is_logged (trace (run w (fetchStockPrice symbol st) c)) = [].
Proof.
  intros Hr Hts Hem Hnote.
  assert (daily_data (respond w (requests c) (request_url symbol)) = Ok (JObj props))
    as Hdata by (by rewrite Hr, daily_data_object, Hem, Hnote).
  rewrite run_fetchStockPrice, Hdata. cbn.
  by rewrite parseStockData_no_series.
Qed.

(** C7: a successful fetch replaces the cache by the cache with the one
    entry of the fetched symbol inserted or overwritten: that symbol maps
    to the new Quote, every other symbol to what it mapped to before. *)
Theorem successful_fetch_updates_one_entry
    (w : World) (c : Clock) (symbol : string) (st : AppState)
    (data : json) (quote : Quote) :
  settled (run w (getDailyData symbol) c) = Ok data →
  parseStockData (Some data) = Ok (Some quote) →
  let st' := final_state (run w (fetchStockPrice symbol st) c) in
  stockPrices st' = <[symbol := quote]> (stockPrices st) ∧
  stockPrices st' !! symbol = Some quote ∧
  ∀ other, other ≠ symbol → stockPrices st' !! other = stockPrices st !! other.
Proof.
  intros Hdata Hparse. unfold final_state.
  rewrite settled_getDailyData in Hdata.
  rewrite settled_fetchStockPrice, Hdata. cbn. rewrite Hparse. cbn.
  split_and!; [done|by rewrite lookup_insert_eq|].
  intros other Hne. by rewrite lookup_insert_ne.
Qed.

(** C8: when [fetch] or [response.json()] rejects with an error [e],
    [getDailyData] fails with that very error; the platform rejects with a
    TypeError, a SyntaxError or a DOMException, never a plain Error, so [e]
    is neither of the two errors the client constructs.  [fetchStockPrice]
    shows its message and leaves the cache as it was. *)
Theorem getDailyData_transport_failure
    (w : World) (c : Clock) (symbol : string) (st : AppState) (e : js_error) :
  respond w (requests c) (request_url symbol) = Throw e ∨
  respond w (requests c) (request_url symbol) = Ok {| Response_json := Throw e |} →
  class e ≠ Error →
  settled (run w (getDailyData symbol) c) = Throw e ∧
  e ≠ NotFoundError ∧ e ≠ RateLimitedError ∧
  settled (run w (fetchStockPrice symbol st) c) =
    (Ok tt, {| stockPrices := stockPrices st; isLoading := false;
               apiStatus := "エラー: " +:+ message e |}).
Proof.
  intros Hr Hclass.
  rewrite settled_getDailyData, settled_fetchStockPrice.
  split_and!; [by destruct Hr as [-> | ->]|by intros ->..|by destruct Hr as [-> | ->]].
Qed.

Lemma parseStockData_empty_series (props : gmap string json) :
  props !! "Time Series (Daily)" = Some (JObj ∅) →
  parseStockData (Some (JObj props)) = Throw (cannot_read "undefined" "1. open").
Proof. intros Hts. unfold parseStockData, Get. by rewrite Hts. Qed.

(** C9: when 'Time Series (Daily)' is present and is the empty object,
    [parseStockData] neither returns null nor a Quote: reading '1. open' of
    the undefined latest entry throws a TypeError; a fetch that got such a
    response (with no truthy 'Error Message' or 'Note') ends with that error
    shown in the status and the cache as it was, instead
    of the silent no-op. *)
Theorem empty_series_throws
    (w : World) (c : Clock) (symbol : string) (st : AppState)
    (props : gmap string json) :
  respond w (requests c) (request_url symbol) = Ok {| Response_json := Ok (JObj props) |} →
  truthy (props !! "Error Message") = false →
  truthy (props !! "Note") = false →
  props !! "Time Series (Daily)" = Some (JObj ∅) →
  parseStockData (Some (JObj props)) = Throw (cannot_read "undefined" "1. open") ∧
  class (cannot_read "undefined" "1. open") = TypeError ∧
  settled (run w (fetchStockPrice symbol st) c) =
    (Ok tt, {| stockPrices := stockPrices st; isLoading := false;
               apiStatus := "エラー: " +:+ message (cannot_read "undefined" "1. open") |}).
Proof.
  intros Hr Hem Hnote Hts. split_and!; [by apply parseStockData_empty_series|done|].
  rewrite settled_fetchStockPrice, Hr, daily_data_object, Hem, Hnote.
  cbn. by rewrite parseStockData_empty_series.
Qed.

(** C10: for every symbol, state and world, [fetchStockPrice] settles
    normally (no error reaches its caller), with the loading flag false; an
    error thrown by [getDailyData] or [parseStockData] ends as the status
    string made of its message; the cache is the old one, unless
    [getDailyData] returned data from which [parseStockData] built a Quote,
    which is then the entry of the symbol. *)
Theorem fetchStockPrice_never_throws
    (w : World) (c : Clock) (symbol : string) (st : AppState) :
  let st' := final_state (run w (fetchStockPrice symbol st) c) in
  completion (run w (fetchStockPrice symbol st) c) = Ok tt ∧
  isLoading st' = false ∧
  (∀ e, settled (run w (getDailyData symbol) c) ≫= (λ data, parseStockData (Some data))
          = Throw e →
        apiStatus st' = "エラー: " +:+ message e) ∧
  (stockPrices st' = stockPrices st ∨
   ∃ data quote,
     settled (run w (getDailyData symbol) c) = Ok data ∧
     parseStockData (Some data) = Ok (Some quote) ∧
     stockPrices st' = <[symbol := quote]> (stockPrices st)).
Proof.
  unfold completion, final_state.
  rewrite settled_getDailyData, settled_fetchStockPrice. cbn.
  destruct (daily_data _) as [data|e]; cbn.
  - destruct (parseStockData (Some data)) as [[quote|]|e] eqn:Hparse; cbn.
    + split_and!; [done..|]. eauto 10.
    + split_and!; [done..|]. eauto.
    + split_and!; [done|done|by intros ? [= <-]|eauto].
  - split_and!; [done|done|by intros ? [= <-]|eauto].
Qed.
End Fetch_properties.

(** ** The latest date *)

Section Latest_date.
#[local] Open Scope string_scope.

Lemma last_of_sorted (l : list string) (x : string) :
  StronglySorted String.le l → last l = Some x → ∀ k, k ∈ l → k ≤ x.
Proof.
  intros Hsorted [l' ->]%last_Some k [Hk | ->%list_elem_of_singleton]%elem_of_app.
  - eapply StronglySorted_app_1_elem_of; [done..|]. by apply list_elem_of_singleton.
  - done.
Qed.

(** Sorting ascending, reversing and taking the first element gives the
    greatest string of the array. *)
Lemma head_sorted_descending (keys : list string) (d : string) :
  greatest_in d keys → head (Array_reverse (Array_sort keys)) = Some d.
Proof.
  intros [Hd Hmax]. unfold Array_reverse, Array_sort. rewrite head_reverse.
  pose proof (merge_sort_Permutation String.le keys) as Hperm.
  pose proof (StronglySorted_merge_sort String.le keys) as Hsorted.
  destruct (last (merge_sort String.le keys)) as [x|] eqn:Hlast.
  - f_equal. apply (anti_symm String.le).
    + apply Hmax. rewrite <- Hperm. by eapply last_Some_elem_of.
    + eapply last_of_sorted; [done..|]. by rewrite Hperm.
  - apply last_None in Hlast. rewrite Hlast in Hperm.
    apply Permutation_nil_l in Hperm. subst keys. by apply elem_of_nil in Hd.
Qed.

Lemma elem_of_Object_keys {A} (m : gmap string A) (k : string) :
  k ∈ (map_to_list m).*1 ↔ is_Some (m !! k).
Proof.
  rewrite list_elem_of_fmap. split.
  - intros [[k' x] [-> Hx%elem_of_map_to_list]]. by exists x.
  - intros [x Hx]. exists (k, x). by rewrite elem_of_map_to_list.
Qed.

(** Every non-empty object has a greatest key. *)
Lemma greatest_key_exists {A} (m : gmap string A) :
  m ≠ ∅ → ∃ d, is_Some (m !! d) ∧ ∀ k, is_Some (m !! k) → k ≤ d.
Proof.
  intros Hne.
  pose proof (merge_sort_Permutation String.le (map_to_list m).*1) as Hperm.
  pose proof (StronglySorted_merge_sort String.le (map_to_list m).*1) as Hsorted.
  destruct (last (merge_sort String.le (map_to_list m).*1)) as [x|] eqn:Hlast.
  - exists x. split.
    + apply elem_of_Object_keys. rewrite <- Hperm. by eapply last_Some_elem_of.
    + intros k Hk%elem_of_Object_keys. eapply last_of_sorted; [done..|]. by rewrite Hperm.
  - apply last_None in Hlast. rewrite Hlast in Hperm.
    apply Permutation_nil_l in Hperm. symmetry in Hperm.
    by apply fmap_nil_inv, map_to_list_empty_iff in Hperm.
Qed.
End Latest_date.

Section Parse_properties.
Context `{Host}.
Import AlphaVantageAPI.
#[local] Open Scope string_scope.

Lemma parseStockData_series (props series : gmap string json) (d : string) :
  props !! "Time Series (Daily)" = Some (JObj series) →
  is_Some (series !! d) →
  (∀ k, is_Some (series !! k) → k ≤ d) →
  parseStockData (Some (JObj props)) = quote_of_entry (Some d) (series !! d).
Proof.
  intros Hts Hd Hmax. unfold parseStockData.
  change (Get (Some (JObj props)) "Time Series (Daily)")
    with (Ok (props !! "Time Series (Daily)")).
  rewrite Hts. cbn [mbind result_bind rbind negb truthy Object_keys].
  rewrite (head_sorted_descending _ d).
  - done.
  - split; [by apply elem_of_Object_keys|].
    intros k Hk%elem_of_Object_keys. by apply Hmax.
Qed.

Lemma quote_of_string_entry (latestDate : option string) (entry : gmap string json)
    (o h l c v : string) :
  entry !! "1. open" = Some (JStr o) →
  entry !! "2. high" = Some (JStr h) →
  entry !! "3. low" = Some (JStr l) →
  entry !! "4. close" = Some (JStr c) →
  entry !! "5. volume" = Some (JStr v) →
  quote_of_entry latestDate (Some (JObj entry)) =
    Ok (Some {| date := latestDate;
                open := parseFloat_string o; high := parseFloat_string h;
                low := parseFloat_string l; close := parseFloat_string c;
                volume := parseInt_string v |}).
Proof.
  intros Ho Hh Hl Hc Hv. unfold quote_of_entry, Get.
  by rewrite Ho, Hh, Hl, Hc, Hv.
Qed.

(** C3: when the daily series is an object whose greatest key (in the
    order of code units, which on ISO dates is the order of the calendar)
    is [d], and the entry under [d] has the five fields as strings,
    [parseStockData] returns a Quote whose date is [d]. *)
Theorem parseStockData_latest_date
    (props series entry : gmap string json) (d o h l c v : string) :
  props !! "Time Series (Daily)" = Some (JObj series) →
  series !! d = Some (JObj entry) →
  (∀ k, is_Some (series !! k) → k ≤ d) →
  entry !! "1. open" = Some (JStr o) →
  entry !! "2. high" = Some (JStr h) →
  entry !! "3. low" = Some (JStr l) →
  entry !! "4. close" = Some (JStr c) →
  entry !! "5. volume" = Some (JStr v) →
  ∃ quote, parseStockData (Some (JObj props)) = Ok (Some quote) ∧
           date quote = Some d.
Proof.
  intros Hts Hd Hmax Ho Hh Hl Hc Hv.
  rewrite (parseStockData_series props series d), Hd by eauto.
  erewrite quote_of_string_entry by done. eauto.
Qed.

(** C4: when the latest entry of the series is
    {"1. open":"150.00","2. high":"152.00","3. low":"149.50",
     "4. close":"151.25","5. volume":"1000000"},
    [parseStockData] returns the Quote with open 150, high 152, low 149.5,
    close 151.25 and volume 1000000: each decimal string denotes a rational
    that binary64 holds exactly, and the Number returned is that rational. *)
Theorem parseStockData_sample_entry
    (props series : gmap string json) (d : string) :
  props !! "Time Series (Daily)" = Some (JObj series) →
  series !! d = Some (JObj sample_entry) →
  (∀ k, is_Some (series !! k) → k ≤ d) →
  ∃ quote, parseStockData (Some (JObj props)) = Ok (Some quote) ∧
    date quote = Some d ∧
    (denotes "150.00" 150 ∧ open quote = Number_of_Z 150 ∧ exactly (open quote) 150) ∧
    (denotes "152.00" 152 ∧ high quote = Number_of_Z 152 ∧ exactly (high quote) 152) ∧
    (denotes "149.50" (299 # 2) ∧ low quote = Number_of_ratio false 299 2 ∧
     exactly (low quote) (299 # 2)) ∧
    (denotes "151.25" (605 # 4) ∧ close quote = Number_of_ratio false 605 4 ∧
     exactly (close quote) (605 # 4)) ∧
    (volume quote = Number_of_Z 1000000 ∧ exactly (volume quote) 1000000).
Proof.
  intros Hts Hd Hmax.
  rewrite (parseStockData_series props series d), Hd by eauto.
  erewrite quote_of_string_entry by done.
  eexists. split; [done|]. cbn [date open high low close volume].
  split_and!; try done; vm_compute; reflexivity.
Qed.
End Parse_properties.

(** ** The batch update *)

Lemma run_act_bind {A B} (w : World) (m : act A) (f : A → act B)
    (st : AppState) (c : Clock) :
  run w ((m ≫= f) st) c =
    let '(r, st1, c1, l1) := run w (m st) c in
    match r with
    | Ok a => let '(x, c2, l2) := run w (f a st1) c1 in (x, c2, l1 ++ l2)
    | Throw e => (Throw e, st1, c1, l1 ++ [])
    end.
Proof.
  unfold mbind, act_bind. rewrite run_io_bind.
  by destruct (run w (m st) c) as [[[[a|e] st1] c1] l1].
Qed.

Section Batch_properties.
Context `{Host}.
Import AlphaVantageAPI.

Lemma run_turn (w : World) (c : Clock) (symbol : string) (st : AppState) :
  run w ((fetchStockPrice symbol;; sleep 1000) st) c =
    (Ok tt, turn_state w c symbol st, turn_clock w c, turn_log w c symbol).
Proof.
  rewrite run_act_bind, run_fetchStockPrice. cbn.
  done.
Qed.

(** The loop over any list of symbols settles normally, whatever the
    requests settle with, after one turn per symbol. *)
Lemma run_for_of_turns (w : World) (symbols : list string) (st : AppState) (c : Clock) :
  completion (run w (for_of symbols (λ symbol, fetchStockPrice symbol;; sleep 1000) st) c)
    = Ok tt ∧
  trace (run w (for_of symbols (λ symbol, fetchStockPrice symbol;; sleep 1000) st) c)
    = turns_log w c symbols.
Proof.
  revert st c. induction symbols as [|symbol symbols IH]; intros st c.
  - done.
  - cbn [for_of]. rewrite run_act_bind, run_turn.
    destruct (IH (turn_state w c symbol st) (turn_clock w c)) as [Hok Hlog].
    destruct (run w _ (turn_clock w c)) as [[[r st'] c'] log'].
    unfold completion, settled, trace in *. cbn in *. by subst.
Qed.

Lemma requested_urls_turns (w : World) (c : Clock) (symbols : list string) :
  requested_urls (turns_log w c symbols) = request_url <$> symbols.
Proof.
  revert c. induction symbols as [|symbol symbols IH]; intros c; [done|].
  cbn [turns_log fmap list_fmap]. rewrite <- IH with (c := turn_clock w c).
  unfold turn_log, requested_urls.
  by destruct (daily_data _).
Qed.

Lemma issue_times_turns (w : World) (c : Clock) (symbol : string) (symbols : list string) :
  issue_times (turns_log w c (symbol :: symbols)) =
    now c :: issue_times (turns_log w (turn_clock w c) symbols).
Proof.
  cbn [turns_log]. unfold turn_log, issue_times.
  by destruct (daily_data _).
Qed.

Lemma one_at_a_time_turns (w : World) (c : Clock) (symbols : list string) :
  one_at_a_time false (turns_log w c symbols) = true.
Proof.
  revert c. induction symbols as [|symbol symbols IH]; intros c; [done|].
  cbn [turns_log]. unfold turn_log.
  destruct (daily_data _); cbn; apply IH.
Qed.

Section Timing.
Variable w : World.
Hypothesis latency_nonneg : ∀ n, 0 ≤ latency w n.
Hypothesis timer_lag_nonneg : ∀ n, 0 ≤ timer_lag w n.

Lemma turn_clock_later (c : Clock) :
  now c + latency w (requests c) + 1000 ≤ now (turn_clock w c).
Proof. cbn. pose proof (timer_lag_nonneg (timers c)). lia. Qed.

Lemma issued_after_settlement_turns (c : Clock) (symbols : list string)
    (last_settled : option Z) :
  (∀ s, last_settled = Some s → s + 1000 ≤ now c) →
  issued_after_settlement 1000 last_settled (turns_log w c symbols).
Proof.
  revert c last_settled.
  induction symbols as [|symbol symbols IH]; intros c last_settled Hlast; [done|].
  cbn [turns_log]. unfold turn_log. cbn [issued_after_settlement app].
  split; [destruct last_settled; auto|].
  assert (issued_after_settlement 1000 (Some (now c + latency w (requests c)))
            (turns_log w (turn_clock w c) symbols)) as Hrest.
  { apply IH. intros s [= <-]. apply turn_clock_later. }
  by destruct (daily_data _).
Qed.

Lemma spaced_turns (c : Clock) (symbols : list string) :
  spaced 1000 (issue_times (turns_log w c symbols)).
Proof.
  revert c. induction symbols as [|symbol symbols IH]; intros c; [done|].
  rewrite issue_times_turns. specialize (IH (turn_clock w c)).
  destruct symbols as [|symbol' symbols]; [done|].
  rewrite issue_times_turns in *. split; [|done].
  pose proof (turn_clock_later c). pose proof (latency_nonneg (requests c)). lia.
Qed.
End Timing.

(** C6: [updateAllPrices] issues exactly one request per symbol of its
    list, in the order of the list, whatever the earlier requests settled
    with (a failure does not stop the loop, which itself settles
    normally); no request is issued while another is outstanding; each
    request after the first is issued at least 1000 ms after the
    settlement of the one before it, hence at least 1000 ms after the one
    before it was issued. *)
Theorem updateAllPrices_sequential (w : World) (st : AppState) (c : Clock) :
  (∀ n, 0 ≤ latency w n) →
  (∀ n, 0 ≤ timer_lag w n) →
  completion (run w (updateAllPrices st) c) = Ok tt ∧
  requested_urls (trace (run w (updateAllPrices st) c)) =
    request_url <$> ["AAPL"; "MSFT"; "7203.T"; "9432.T"] ∧
  one_at_a_time false (trace (run w (updateAllPrices st) c)) = true ∧
  issued_after_settlement 1000 None (trace (run w (updateAllPrices st) c)) ∧
  spaced 1000 (issue_times (trace (run w (updateAllPrices st) c))).
Proof.
  intros Hlatency Hlag. unfold updateAllPrices.
  destruct (run_for_of_turns w ["AAPL"; "MSFT"; "7203.T"; "9432.T"] st c) as [-> ->].
  split_and!.
  - done.
  - apply requested_urls_turns.
  - apply one_at_a_time_turns.
  - by apply issued_after_settlement_turns.
  - by apply spaced_turns.
Qed.
End Batch_properties.

(** ** Closed instances *)

Import Examples.

(** 2024-01-03 is the greatest key of [two_days]. *)
Lemma two_days_latest (k : string) :
  is_Some (two_days !! k) → (k ≤ "2024-01-03")%string.
Proof.
  unfold two_days. intros [x Hx].
  apply lookup_insert_Some in Hx as [[<- _]|[_ Hx]]; [done|].
  by apply lookup_singleton_Some in Hx as [<- _].
Defined.

(** C1 as stated fails: this response object contains 'Error Message', but
    with the empty string, which is falsy; [getDailyData] returns the data,
    and the fetch ends as a silent no-op with no error shown. *)
Lemma empty_error_message_is_not_a_failure :
  is_Some (empty_error_message !! "Error Message") ∧
  settled (run (Sample.always (Sample.body (JObj empty_error_message)))
             (AlphaVantageAPI.getDailyData (H := Sample.host) "AAPL") Sample.start)
    = Ok (JObj empty_error_message) ∧
  settled (run (Sample.always (Sample.body (JObj empty_error_message)))
             (fetchStockPrice (H := Sample.host) "AAPL" Sample.idle) Sample.start)
    = (Ok tt, {| stockPrices := ∅; isLoading := false;
                 apiStatus := "AAPL のデータを取得中..." |}).
Proof. split_and!; [by eexists|by vm_compute..]. Qed.

(** An instance of the amended C1: the response {"Error Message": "Invalid API call."}. *)
Lemma getDailyData_error_message_witness :
  settled (run (Sample.always (Sample.body (JObj invalid_call)))
             (AlphaVantageAPI.getDailyData (H := Sample.host) "AAPL") Sample.start)
    = Throw NotFoundError ∧
  completion (run (Sample.always (Sample.body (JObj invalid_call)))
                (fetchStockPrice (H := Sample.host) "AAPL" Sample.idle) Sample.start) = Ok tt ∧
  stockPrices (final_state (run (Sample.always (Sample.body (JObj invalid_call)))
                (fetchStockPrice (H := Sample.host) "AAPL" Sample.idle) Sample.start))
    = stockPrices Sample.idle ∧
  apiStatus (final_state (run (Sample.always (Sample.body (JObj invalid_call)))
                (fetchStockPrice (H := Sample.host) "AAPL" Sample.idle) Sample.start))
    = "エラー: " +:+ message NotFoundError.
Proof.
  apply (getDailyData_error_message (H := Sample.host)
           (Sample.always (Sample.body (JObj invalid_call))) Sample.start "AAPL" Sample.idle
           invalid_call (JStr "Invalid API call.")); reflexivity.
Defined.

(** C2 as stated fails: this response object contains 'Note', and also
    'Error Message', which is tested first; [getDailyData] throws the
    symbol-not-found error, not the rate-limit error. *)
Lemma note_with_error_message_is_not_found :
  is_Some (invalid_and_throttled !! "Note") ∧
  settled (run (Sample.always (Sample.body (JObj invalid_and_throttled)))
             (AlphaVantageAPI.getDailyData (H := Sample.host) "AAPL") Sample.start)
    = Throw NotFoundError ∧
  NotFoundError ≠ RateLimitedError.
Proof. split_and!; [by eexists|by vm_compute|done]. Qed.

(** An instance of the amended C2: a response with a 'Note' only. *)
Lemma getDailyData_note_witness :
  settled (run (Sample.always (Sample.body (JObj throttled)))
             (AlphaVantageAPI.getDailyData (H := Sample.host) "AAPL") Sample.start)
    = Throw RateLimitedError ∧
  RateLimitedError ≠ NotFoundError.
Proof.
  apply (getDailyData_note (H := Sample.host)
           (Sample.always (Sample.body (JObj throttled))) Sample.start "AAPL"
           throttled (JStr "Thank you for using Alpha Vantage!")); reflexivity.
Defined.

(** An instance of C3: of the dates 2024-01-02 and 2024-01-03 the later is selected. *)
Lemma parseStockData_latest_date_witness :
  ∃ quote,
    AlphaVantageAPI.parseStockData (H := Sample.host) (Some (JObj (daily two_days)))
      = Ok (Some quote) ∧
    date quote = Some "2024-01-03".
Proof.
  apply (parseStockData_latest_date (H := Sample.host) (daily two_days) two_days sample_entry
           "2024-01-03" "150.00" "152.00" "149.50" "151.25" "1000000");
    [reflexivity|reflexivity|exact two_days_latest|reflexivity..].
Defined.

(** An instance of C4: the sample entry under 2024-01-03. *)
Lemma parseStockData_sample_entry_witness :
  ∃ quote,
    AlphaVantageAPI.parseStockData (H := Sample.host) (Some (JObj (daily two_days)))
      = Ok (Some quote) ∧
    date quote = Some "2024-01-03" ∧
    (denotes "150.00" 150 ∧ open quote = Number_of_Z 150 ∧ exactly (open quote) 150) ∧
    (denotes "152.00" 152 ∧ high quote = Number_of_Z 152 ∧ exactly (high quote) 152) ∧
    (denotes "149.50" (299 # 2) ∧ low quote = Number_of_ratio false 299 2 ∧
     exactly (low quote) (299 # 2)) ∧
    (denotes "151.25" (605 # 4) ∧ close quote = Number_of_ratio false 605 4 ∧
     exactly (close quote) (605 # 4)) ∧
    (volume quote = Number_of_Z 1000000 ∧ exactly (volume quote) 1000000).
Proof.
  apply (parseStockData_sample_entry (H := Sample.host) (daily two_days) two_days "2024-01-03");
    [reflexivity|reflexivity|exact two_days_latest].
Defined.

(** An instance of C5: a response with an 'Information' field only. *)
Lemma fetch_without_series_is_silent_witness :
  AlphaVantageAPI.parseStockData (H := Sample.host) (Some (JObj information_only)) = Ok None ∧
  settled (run (Sample.always (Sample.body (JObj information_only)))
             (fetchStockPrice (H := Sample.host) "AAPL" Sample.idle) Sample.start)
    = (Ok tt, {| stockPrices := stockPrices Sample.idle; isLoading := false;
                 apiStatus := "AAPL" +:+ " のデータを取得中..." |}) ∧
  List.filter is_logged
    (trace (run (Sample.always (Sample.body (JObj information_only)))
              (fetchStockPrice (H := Sample.host) "AAPL" Sample.idle) Sample.start)) = [].
Proof.
  apply (fetch_without_series_is_silent (H := Sample.host)
           (Sample.always (Sample.body (JObj information_only))) Sample.start "AAPL"
           Sample.idle information_only); reflexivity.
Defined.

(** An instance of C6: every request fails, and all four are still issued. *)
Lemma updateAllPrices_sequential_witness :
  completion (run (Sample.always (Throw failed_to_fetch))
                (updateAllPrices (H := Sample.host) Sample.idle) Sample.start) = Ok tt ∧
  requested_urls (trace (run (Sample.always (Throw failed_to_fetch))
                           (updateAllPrices (H := Sample.host) Sample.idle) Sample.start)) =
    AlphaVantageAPI.request_url (H := Sample.host) <$> ["AAPL"; "MSFT"; "7203.T"; "9432.T"] ∧
  one_at_a_time false (trace (run (Sample.always (Throw failed_to_fetch))
                                (updateAllPrices (H := Sample.host) Sample.idle) Sample.start))
    = true ∧
  issued_after_settlement 1000 None
    (trace (run (Sample.always (Throw failed_to_fetch))
              (updateAllPrices (H := Sample.host) Sample.idle) Sample.start)) ∧
  spaced 1000 (issue_times (trace (run (Sample.always (Throw failed_to_fetch))
                                     (updateAllPrices (H := Sample.host) Sample.idle)
                                     Sample.start))).
Proof.
  apply (updateAllPrices_sequential (H := Sample.host)
           (Sample.always (Throw failed_to_fetch)) Sample.idle Sample.start);
    intros n; simpl; lia.
Defined.

(** An instance of C7: the first quote of AAPL enters the empty cache. *)
Lemma successful_fetch_updates_one_entry_witness :
  stockPrices (final_state (run (Sample.always (Sample.body (JObj (daily two_days))))
                 (fetchStockPrice (H := Sample.host) "AAPL" Sample.idle) Sample.start))
    = <["AAPL" := sample_quote]> (stockPrices Sample.idle) ∧
  stockPrices (final_state (run (Sample.always (Sample.body (JObj (daily two_days))))
                 (fetchStockPrice (H := Sample.host) "AAPL" Sample.idle) Sample.start))
    !! "AAPL" = Some sample_quote ∧
  ∀ other, other ≠ "AAPL" →
    stockPrices (final_state (run (Sample.always (Sample.body (JObj (daily two_days))))
                   (fetchStockPrice (H := Sample.host) "AAPL" Sample.idle) Sample.start))
      !! other = stockPrices Sample.idle !! other.
Proof.
  apply (successful_fetch_updates_one_entry (H := Sample.host)
           (Sample.always (Sample.body (JObj (daily two_days)))) Sample.start "AAPL"
           Sample.idle (JObj (daily two_days)) sample_quote); vm_compute; reflexivity.
Defined.

(** An instance of C8: [fetch] rejects with TypeError "Failed to fetch". *)
Lemma getDailyData_transport_failure_witness :
  settled (run (Sample.always (Throw failed_to_fetch))
             (AlphaVantageAPI.getDailyData (H := Sample.host) "AAPL") Sample.start)
    = Throw failed_to_fetch ∧
  failed_to_fetch ≠ NotFoundError ∧ failed_to_fetch ≠ RateLimitedError ∧
  settled (run (Sample.always (Throw failed_to_fetch))
             (fetchStockPrice (H := Sample.host) "AAPL" Sample.idle) Sample.start)
    = (Ok tt, {| stockPrices := stockPrices Sample.idle; isLoading := false;
                 apiStatus := "エラー: " +:+ message failed_to_fetch |}).
Proof.
  apply (getDailyData_transport_failure (H := Sample.host)
           (Sample.always (Throw failed_to_fetch)) Sample.start "AAPL" Sample.idle
           failed_to_fetch); [left; reflexivity|simpl; discriminate].
Defined.

(** An instance of C9: the response {"Time Series (Daily)": {}}. *)
Lemma empty_series_throws_witness :
  AlphaVantageAPI.parseStockData (H := Sample.host) (Some (JObj (daily ∅)))
    = Throw (cannot_read "undefined" "1. open") ∧
  class (cannot_read "undefined" "1. open") = TypeError ∧
  settled (run (Sample.always (Sample.body (JObj (daily ∅))))
             (fetchStockPrice (H := Sample.host) "AAPL" Sample.idle) Sample.start)
    = (Ok tt, {| stockPrices := stockPrices Sample.idle; isLoading := false;
                 apiStatus := "エラー: " +:+ message (cannot_read "undefined" "1. open") |}).
Proof.
  apply (empty_series_throws (H := Sample.host)
           (Sample.always (Sample.body (JObj (daily ∅)))) Sample.start "AAPL" Sample.idle
           (daily ∅)); reflexivity.
Defined.

(** ** Further properties of the client *)

Section More_fetch_properties.
Context `{Host}.
Import AlphaVantageAPI.

Lemma Get_primitive_or_array (data : json) (key : string) :
  key_index key = None → key ≠ "length" →
  match data with JNull | JObj _ => False | _ => True end →
  Get (Some data) key = Ok undefined.
Proof.
  intros Hindex Hlength Hdata. unfold Get.
  destruct data; try done; by rewrite decide_False, Hindex.
Qed.

(** X1: a JSON body that is a boolean, a number, a string or an array is
    returned by [getDailyData] as it is, [parseStockData] finds no series in
    it and returns null, and the fetch is a silent no-op: cache unchanged,
    status left at the progress message, nothing on the console. *)
Theorem non_object_body_is_silent
    (w : World) (c : Clock) (symbol : string) (st : AppState) (data : json) :
  respond w (requests c) (request_url symbol) = Ok {| Response_json := Ok data |} →
  match data with JNull | JObj _ => False | _ => True end →
  settled (run w (getDailyData symbol) c) = Ok data ∧
  parseStockData (Some data) = Ok None ∧
  settled (run w (fetchStockPrice symbol st) c) =
    (Ok tt, {| stockPrices := stockPrices st; isLoading := false;
               apiStatus := symbol +:+ " のデータを取得中..." |}) ∧
  List.filter is_logged (trace (run w (fetchStockPrice symbol st) c)) = [].
Proof.
  intros Hr Hdata.
  assert (daily_data (respond w (requests c) (request_url symbol)) = Ok data) as Hdaily.
  { rewrite Hr. unfold daily_data. cbn [mbind result_bind rbind Response_json].
    by rewrite !Get_primitive_or_array. }
  assert (parseStockData (Some data) = Ok None) as Hparse.
  { unfold parseStockData. by rewrite Get_primitive_or_array. }
  rewrite settled_getDailyData, run_fetchStockPrice, Hdaily. cbn.
  by rewrite Hparse.
Qed.

(** X2: a JSON body that is [null] makes [getDailyData] fail, on reading
    'Error Message' of it, with a TypeError, logged once; [fetchStockPrice]
    shows its message and leaves the cache as it was. *)
Theorem null_body_is_a_type_error
    (w : World) (c : Clock) (symbol : string) (st : AppState) :
  respond w (requests c) (request_url symbol) = Ok {| Response_json := Ok JNull |} →
  settled (run w (getDailyData symbol) c) = Throw (cannot_read "null" "Error Message") ∧
  class (cannot_read "null" "Error Message") = TypeError ∧
  List.filter is_logged (trace (run w (getDailyData symbol) c)) =
    [Logged "API Error:" (cannot_read "null" "Error Message")] ∧
  settled (run w (fetchStockPrice symbol st) c) =
    (Ok tt, {| stockPrices := stockPrices st; isLoading := false;
               apiStatus := "エラー: " +:+ message (cannot_read "null" "Error Message") |}).
Proof.
  intros Hr. rewrite run_getDailyData, run_fetchStockPrice, Hr. done.
Qed.

(** X3: [getDailyData] issues exactly one request, for the URL of its
    symbol, and writes to the console exactly when it fails: one line, with
    the error it rethrows.  [fetchStockPrice] adds nothing to it: an error
    thrown by [parseStockData] reaches the status but not the console. *)
Theorem console_lines_are_the_failures_of_getDailyData
    (w : World) (c : Clock) (symbol : string) (st : AppState) :
  requested_urls (trace (run w (getDailyData symbol) c)) = [request_url symbol] ∧
  List.filter is_logged (trace (run w (getDailyData symbol) c)) =
    match settled (run w (getDailyData symbol) c) with
    | Ok _ => []
    | Throw e => [Logged "API Error:" e]
    end ∧
  trace (run w (fetchStockPrice symbol st) c) = trace (run w (getDailyData symbol) c).
Proof.
  rewrite trace_fetchStockPrice, run_getDailyData.
  split_and!; [|by destruct (daily_data _)|done].
  unfold trace, requested_urls. cbn. by destruct (daily_data _).
Qed.
End More_fetch_properties.

Section More_parse_properties.
Context `{Host}.
Import AlphaVantageAPI.
#[local] Open Scope string_scope.

Lemma parseStockData_unfold (apiData : jsval) :
  parseStockData apiData =
    (timeSeries ← Get apiData "Time Series (Daily)";
     if negb (truthy timeSeries) then Ok None else
     keys ← Object_keys timeSeries;
     let latestDate := head (Array_reverse (Array_sort keys)) in
     latestData ← Get timeSeries (default "undefined" latestDate);
     quote_of_entry latestDate latestData).
Proof. reflexivity. Qed.

Lemma quote_of_entry_date (latestDate : option string) (latestData : jsval)
    (answer : option Quote) :
  quote_of_entry latestDate latestData = Ok answer →
  ∃ quote, answer = Some quote ∧ date quote = latestDate ∧ latestData ≠ None.
Proof.
  unfold quote_of_entry.
  destruct latestData as [entry|]; [|done].
  destruct (Get (Some entry) "1. open" ≫= parseFloat) as [o|]; [|done].
  destruct (Get (Some entry) "2. high" ≫= parseFloat) as [h|]; [|done].
  destruct (Get (Some entry) "3. low" ≫= parseFloat) as [l|]; [|done].
  destruct (Get (Some entry) "4. close" ≫= parseFloat) as [c|]; [|done].
  destruct (Get (Some entry) "5. volume" ≫= parseInt) as [v|]; [|done].
  intros [= <-]. eauto.
Qed.

Lemma sorted_descending_head (keys : list string) :
  match head (Array_reverse (Array_sort keys)) with
  | Some d => greatest_in d keys
  | None => keys = []
  end.
Proof.
  unfold Array_reverse, Array_sort. rewrite head_reverse.
  pose proof (merge_sort_Permutation String.le keys) as Hperm.
  pose proof (StronglySorted_merge_sort String.le keys) as Hsorted.
  destruct (last (merge_sort String.le keys)) as [x|] eqn:Hlast.
  - split.
    + rewrite <- Hperm. by eapply last_Some_elem_of.
    + intros k Hk. eapply last_of_sorted; [done..|]. by rewrite Hperm.
  - apply last_None in Hlast. rewrite Hlast in Hperm.
    by apply Permutation_nil_l in Hperm.
Qed.

(** A truthy value without keys has no property "undefined". *)
Lemma Get_undefined_of_keyless (timeSeries : jsval) :
  truthy timeSeries = true →
  Object_keys timeSeries = Ok [] →
  Get timeSeries "undefined" = Ok None.
Proof.
  destruct timeSeries as [[|b|x|s|items|props]|]; try done.
  intros _ [= Hkeys]. apply fmap_nil_inv, map_to_list_empty_iff in Hkeys.
  subst props. unfold Get. by rewrite lookup_empty.
Qed.

(** X4: [parseStockData] returns null exactly when reading
    'Time Series (Daily)' succeeds with a falsy value: undefined (the key is
    missing), null, false, 0 or the empty string.  With a truthy value it
    returns a Quote or throws. *)
Theorem parseStockData_null_iff_no_series (apiData : jsval) :
  parseStockData apiData = Ok None ↔
  ∃ timeSeries, Get apiData "Time Series (Daily)" = Ok timeSeries ∧
                truthy timeSeries = false.
Proof.
  rewrite parseStockData_unfold.
  destruct (Get apiData "Time Series (Daily)") as [timeSeries|e]; cbn.
  2: { split; [done|]. by intros (? & [=] & _). }
  destruct (truthy timeSeries) eqn:Htruthy; cbn.
  - split.
    + intros Hnull. exfalso.
      destruct (Object_keys timeSeries) as [keys|e]; cbn in Hnull; [|done].
      destruct (Get timeSeries _) as [latestData|e]; cbn in Hnull; [|done].
      by apply quote_of_entry_date in Hnull as (? & ? & _).
    + intros (? & [= <-] & Hfalsy). congruence.
  - split; [eauto|done].
Qed.

(** X5: every Quote [parseStockData] returns carries a date, and that date
    is the greatest of the keys [Object.keys] gives for the series, whatever
    JSON value the series is (an object, an array, a string). *)
Theorem parseStockData_date_is_greatest_key (apiData : jsval) (quote : Quote) :
  parseStockData apiData = Ok (Some quote) →
  ∃ timeSeries keys d,
    Get apiData "Time Series (Daily)" = Ok timeSeries ∧
    Object_keys timeSeries = Ok keys ∧
    date quote = Some d ∧ greatest_in d keys.
Proof.
  rewrite parseStockData_unfold.
  destruct (Get apiData "Time Series (Daily)") as [timeSeries|e]; cbn; [|done].
  destruct (truthy timeSeries) eqn:Htruthy; cbn; [|done].
  destruct (Object_keys timeSeries) as [keys|e] eqn:Hkeys; cbn; [|done].
  pose proof (sorted_descending_head keys) as Hhead.
  destruct (head (Array_reverse (Array_sort keys))) as [d|]; cbn.
  - destruct (Get timeSeries d) as [latestData|e]; cbn; [|done].
    intros (? & [= <-] & Hdate & _)%quote_of_entry_date. eauto 10.
  - subst keys. rewrite Get_undefined_of_keyless by done. cbn.
    by intros (? & _ & _ & ?)%quote_of_entry_date.
Qed.

Lemma parseStockData_string_or_missing
    (props series entry : gmap string json) (d : string) :
  props !! "Time Series (Daily)" = Some (JObj series) →
  series !! d = Some (JObj entry) →
  (∀ k, is_Some (series !! k) → k ≤ d) →
  (∀ key, key ∈ ["1. open"; "2. high"; "3. low"; "4. close"; "5. volume"] →
          entry !! key = None ∨ ∃ s, entry !! key = Some (JStr s)) →
  parseStockData (Some (JObj props)) =
    Ok (Some {| date := Some d;
                open := field_number parseFloat_string entry "1. open";
                high := field_number parseFloat_string entry "2. high";
                low := field_number parseFloat_string entry "3. low";
                close := field_number parseFloat_string entry "4. close";
                volume := field_number parseInt_string entry "5. volume" |}).
Proof.
  intros Hts Hd Hmax Hfields.
  rewrite (parseStockData_series props series d), Hd by eauto.
  unfold quote_of_entry, field_number, Get.
  destruct (Hfields "1. open" ltac:(repeat constructor)) as [Ho|[o Ho]];
    destruct (Hfields "2. high" ltac:(repeat constructor)) as [Hh|[h Hh]];
    destruct (Hfields "3. low" ltac:(repeat constructor)) as [Hl|[l Hl]];
    destruct (Hfields "4. close" ltac:(repeat constructor)) as [Hc|[c Hc]];
    destruct (Hfields "5. volume" ltac:(repeat constructor)) as [Hv|[v Hv]];
    by rewrite Ho, Hh, Hl, Hc, Hv.
Qed.

(** X6: a field of the latest entry that is missing does not make
    [parseStockData] fail: when each of the five fields is a string or is
    missing, the Quote is returned with NaN for the missing ones. *)
Theorem parseStockData_missing_fields_are_NaN
    (props series entry : gmap string json) (d : string) :
  props !! "Time Series (Daily)" = Some (JObj series) →
  series !! d = Some (JObj entry) →
  (∀ k, is_Some (series !! k) → k ≤ d) →
  (∀ key, key ∈ ["1. open"; "2. high"; "3. low"; "4. close"; "5. volume"] →
          entry !! key = None ∨ ∃ s, entry !! key = Some (JStr s)) →
  parseStockData (Some (JObj props)) =
    Ok (Some {| date := Some d;
                open := field_number parseFloat_string entry "1. open";
                high := field_number parseFloat_string entry "2. high";
                low := field_number parseFloat_string entry "3. low";
                close := field_number parseFloat_string entry "4. close";
                volume := field_number parseInt_string entry "5. volume" |}).
Proof.
  intros Hts Hd Hmax Hfields.
  rewrite (parseStockData_series props series d), Hd by eauto.
  unfold quote_of_entry, field_number, Get.
  destruct (Hfields "1. open" ltac:(repeat constructor)) as [Ho|[o Ho]];
    destruct (Hfields "2. high" ltac:(repeat constructor)) as [Hh|[h Hh]];
    destruct (Hfields "3. low" ltac:(repeat constructor)) as [Hl|[l Hl]];
    destruct (Hfields "4. close" ltac:(repeat constructor)) as [Hc|[c Hc]];
    destruct (Hfields "5. volume" ltac:(repeat constructor)) as [Hv|[v Hv]];
    by rewrite Ho, Hh, Hl, Hc, Hv.
Qed.

(** X7: only the entry under the greatest key is read: two responses whose
    series have the same greatest key and the same entry under it give the
    same result, whatever their older entries are. *)
Theorem parseStockData_reads_latest_entry_only
    (props1 props2 series1 series2 : gmap string json) (d : string) :
  props1 !! "Time Series (Daily)" = Some (JObj series1) →
  props2 !! "Time Series (Daily)" = Some (JObj series2) →
  is_Some (series1 !! d) →
  series1 !! d = series2 !! d →
  (∀ k, is_Some (series1 !! k) → k ≤ d) →
  (∀ k, is_Some (series2 !! k) → k ≤ d) →
  parseStockData (Some (JObj props1)) = parseStockData (Some (JObj props2)).
Proof.
  intros Hts1 Hts2 Hd Hsame Hmax1 Hmax2.
  rewrite (parseStockData_series props1 series1 d) by done.
  rewrite (parseStockData_series props2 series2 d) by (by rewrite <- ?Hsame).
  by rewrite Hsame.
Qed.
End More_parse_properties.

(** ** Further properties of the handlers and of what is shown *)

Section More_handler_properties.
Context `{Host}.
Import AlphaVantageAPI.

Lemma final_fetchStockPrice (w : World) (symbol : string) (st : AppState) (c : Clock) :
  final_state (run w (fetchStockPrice symbol st) c) =
    state_after symbol st (fetch_outcome w (requests c) symbol) ∧
  final_clock (run w (fetchStockPrice symbol st) c) =
    {| now := now c + latency w (requests c); requests := S (requests c);
       timers := timers c |}.
Proof. by rewrite run_fetchStockPrice. Qed.

Lemma stockPrices_state_after (symbol : string) (st : AppState)
    (outcome : result (option Quote)) :
  stockPrices (state_after symbol st outcome) = cache_after symbol outcome (stockPrices st).
Proof. by destruct outcome as [[quote|]|e]. Qed.

Lemma lookup_cache_after (symbol other : string) (outcome : result (option Quote))
    (cache : gmap string Quote) :
  cache_after symbol outcome cache !! other =
    match outcome with
    | Ok (Some quote) => if decide (other = symbol) then Some quote else cache !! other
    | _ => cache !! other
    end.
Proof.
  destruct outcome as [[quote|]|e]; cbn; [|done..].
  case_decide as Heq; [subst; by rewrite lookup_insert_eq|by rewrite lookup_insert_ne].
Qed.

(** X8: fetching a symbol again, after a fetch that cached a Quote for it:
    the entry is the new Quote when the second fetch produces one (the last
    successful fetch wins) and stays the earlier Quote when the second fetch
    ends in no data or in an error; the other entries are those from before
    both fetches. *)
Theorem refetch_keeps_or_replaces
    (w : World) (c : Clock) (symbol : string) (st : AppState) (first : Quote) :
  fetch_outcome w (requests c) symbol = Ok (Some first) →
  let once := run w (fetchStockPrice symbol st) c in
  let twice := run w (fetchStockPrice symbol (final_state once)) (final_clock once) in
  stockPrices (final_state twice) !! symbol =
    match fetch_outcome w (S (requests c)) symbol with
    | Ok (Some second) => Some second
    | _ => Some first
    end ∧
  ∀ other, other ≠ symbol →
    stockPrices (final_state twice) !! other = stockPrices st !! other.
Proof.
  intros Hfirst once twice. subst once twice.
  destruct (final_fetchStockPrice w symbol st c) as [-> ->].
  destruct (final_fetchStockPrice w symbol
              (state_after symbol st (fetch_outcome w (requests c) symbol))
              {| now := now c + latency w (requests c); requests := S (requests c);
                 timers := timers c |}) as [-> _].
  cbn [requests]. rewrite !stockPrices_state_after, Hfirst. split.
  - rewrite lookup_cache_after.
    destruct (fetch_outcome w (S (requests c)) symbol) as [[second|]|e];
      rewrite ?decide_True by done; try done; cbn; by rewrite lookup_insert_eq.
  - intros other Hne. rewrite !lookup_cache_after.
    destruct (fetch_outcome w (S (requests c)) symbol) as [[second|]|e];
      by rewrite !decide_False by done.
Qed.

(** X9: what a fetch does to the price [updatePriceFromAPI] shows: it
    becomes the close of the new Quote for the fetched symbol when the fetch
    produced a Quote; for every other symbol, and after a fetch that ended
    in no data or in an error, it is the price shown before. *)
Theorem fetch_updates_shown_price
    (w : World) (c : Clock) (symbol : string) (st : AppState)
    (basePrice : Number) (shown : string) :
  updatePriceFromAPI (stockPrices (final_state (run w (fetchStockPrice symbol st) c)))
      basePrice shown =
    match fetch_outcome w (requests c) symbol with
    | Ok (Some quote) =>
        if decide (shown = symbol) then Some (close quote)
        else updatePriceFromAPI (stockPrices st) basePrice shown
    | _ => updatePriceFromAPI (stockPrices st) basePrice shown
    end.
Proof.
  destruct (final_fetchStockPrice w symbol st c) as [-> _].
  rewrite stockPrices_state_after. unfold updatePriceFromAPI.
  rewrite lookup_cache_after.
  destruct (fetch_outcome w (requests c) symbol) as [[quote|]|e]; [|done..].
  by case_decide.
Qed.

Lemma fetched_data_shown_nonempty (cache : gmap string Quote) :
  fetched_data_shown cache = true ↔ cache ≠ ∅.
Proof.
  unfold fetched_data_shown. rewrite Nat.ltb_lt, length_fmap.
  rewrite <- map_to_list_empty_iff.
  destruct (map_to_list cache); cbn; [split; [lia|done]|split; [done|lia]].
Qed.

(** X10: the panel of fetched data is rendered after a fetch exactly when
    it was rendered before or the fetch produced a Quote: it appears with
    the first Quote and no later fetch, failed or not, removes it. *)
Theorem fetched_data_panel_after_fetch
    (w : World) (c : Clock) (symbol : string) (st : AppState) :
  fetched_data_shown (stockPrices (final_state (run w (fetchStockPrice symbol st) c))) =
    fetched_data_shown (stockPrices st) ||
    match fetch_outcome w (requests c) symbol with
    | Ok (Some _) => true
    | _ => false
    end.
Proof.
  destruct (final_fetchStockPrice w symbol st c) as [-> _].
  rewrite stockPrices_state_after.
  destruct (fetch_outcome w (requests c) symbol) as [[quote|]|e]; cbn;
    rewrite ?orb_false_r; [|done..].
  rewrite orb_true_r. apply fetched_data_shown_nonempty, insert_non_empty.
Qed.
End More_handler_properties.

(** ** Further properties of the batch update *)

Section More_batch_properties.
Context `{Host}.
Import AlphaVantageAPI.

Lemma run_for_of_turns_full (w : World) (symbols : list string) (st : AppState) (c : Clock) :
  run w (for_of symbols (λ symbol, fetchStockPrice symbol;; sleep 1000) st) c =
    (Ok tt, turns_state w c symbols st, turns_clock w c symbols, turns_log w c symbols).
Proof.
  revert st c. induction symbols as [|symbol symbols IH]; intros st c; [done|].
  cbn [for_of]. rewrite run_act_bind, run_turn, IH. done.
Qed.

Lemma stockPrices_turn_state (w : World) (c : Clock) (symbol : string) (st : AppState) :
  stockPrices (turn_state w c symbol st) =
    cache_after symbol (fetch_outcome w (requests c) symbol) (stockPrices st).
Proof. apply stockPrices_state_after. Qed.

Lemma turns_state_lookup (w : World) (symbols : list string) :
  NoDup symbols →
  ∀ (c : Clock) (st : AppState),
    (∀ i symbol, symbols !! i = Some symbol →
       stockPrices (turns_state w c symbols st) !! symbol =
         match fetch_outcome w (requests c + i)%nat symbol with
         | Ok (Some quote) => Some quote
         | _ => stockPrices st !! symbol
         end) ∧
    (∀ other, other ∉ symbols →
       stockPrices (turns_state w c symbols st) !! other = stockPrices st !! other).
Proof.
  induction 1 as [|first symbols Hfresh Hnodup IH]; intros c st.
  { split; [by intros i symbol [=]|done]. }
  destruct (IH (turn_clock w c) (turn_state w c first st)) as [IHin IHout].
  cbn [turns_state]. split.
  - intros [|i] symbol Hi; cbn in Hi.
    + injection Hi as <-. rewrite IHout by done.
      rewrite stockPrices_turn_state, lookup_cache_after, Nat.add_0_r.
      destruct (fetch_outcome _ _ _) as [[quote|]|e]; by rewrite ?decide_True.
    + rewrite (IHin i symbol Hi). cbn [turn_clock requests].
      replace (S (requests c) + i)%nat with (requests c + S i)%nat by lia.
      assert (symbol ≠ first) as Hne.
      { intros ->. apply Hfresh. by eapply list_elem_of_lookup_2. }
      destruct (fetch_outcome w (requests c + S i) symbol) as [[quote|]|e]; try done;
        rewrite stockPrices_turn_state, lookup_cache_after;
        destruct (fetch_outcome w (requests c) first) as [[quote'|]|e'];
        by rewrite ?decide_False.
  - intros other [Hne Hother]%not_elem_of_cons. rewrite IHout by done.
    rewrite stockPrices_turn_state, lookup_cache_after.
    destruct (fetch_outcome _ _ _) as [[quote|]|e]; by rewrite ?decide_False.
Qed.

Lemma isLoading_turns_state (w : World) (symbols : list string) (c : Clock) (st : AppState) :
  symbols ≠ [] → isLoading (turns_state w c symbols st) = false.
Proof.
  revert c st. induction symbols as [|first [|second symbols] IH]; intros c st Hne; [done|..].
  - cbn. unfold turn_state. by destruct (_ ≫= _) as [[quote|]|e].
  - cbn [turns_state]. by apply IH.
Qed.

(** X11: after [updateAllPrices], each of the four symbols maps to the
    Quote its own request produced, if it produced one, and otherwise to
    what it mapped to before, independently of how the other three requests
    ended; every other symbol maps to what it mapped to before; the loading
    flag is false. *)
Theorem updateAllPrices_result (w : World) (st : AppState) (c : Clock) :
  let st' := final_state (run w (updateAllPrices st) c) in
  (∀ i symbol, ["AAPL"; "MSFT"; "7203.T"; "9432.T"] !! i = Some symbol →
     stockPrices st' !! symbol =
       match fetch_outcome w (requests c + i)%nat symbol with
       | Ok (Some quote) => Some quote
       | _ => stockPrices st !! symbol
       end) ∧
  (∀ other, other ∉ ["AAPL"; "MSFT"; "7203.T"; "9432.T"] →
     stockPrices st' !! other = stockPrices st !! other) ∧
  isLoading st' = false.
Proof.
  unfold updateAllPrices. rewrite run_for_of_turns_full. unfold final_state, settled.
  cbn [fst snd].
  assert (NoDup ["AAPL"; "MSFT"; "7203.T"; "9432.T"]) as Hnodup.
  { apply NoDup_ListNoDup. repeat constructor; cbn; intuition discriminate. }
  destruct (turns_state_lookup w _ Hnodup c st) as [Hin Hout].
  split_and!; [done|done|by apply isLoading_turns_state].
Qed.

Lemma turns_clock_counts (w : World) (symbols : list string) (c : Clock) :
  requests (turns_clock w c symbols) = (requests c + length symbols)%nat ∧
  timers (turns_clock w c symbols) = (timers c + length symbols)%nat.
Proof.
  revert c. induction symbols as [|symbol symbols IH]; intros c; cbn; [lia|].
  destruct (IH (turn_clock w c)) as [-> ->]. cbn. lia.
Qed.

Lemma turns_clock_elapsed (w : World) (symbols : list string) (c : Clock) :
  (∀ n, 0 ≤ latency w n) → (∀ n, 0 ≤ timer_lag w n) →
  now c + 1000 * Z.of_nat (length symbols) ≤ now (turns_clock w c symbols).
Proof.
  intros Hlatency Hlag. revert c.
  induction symbols as [|symbol symbols IH]; intros c; cbn [turns_clock length]; [lia|].
  specialize (IH (turn_clock w c)). cbn [turn_clock now] in IH.
  pose proof (Hlatency (requests c)). pose proof (Hlag (timers c)). lia.
Qed.

Lemma turns_log_last (w : World) (symbols : list string) (c : Clock) :
  symbols ≠ [] →
  last (turns_log w c symbols) = Some (TimerFired (now (turns_clock w c symbols))).
Proof.
  revert c. induction symbols as [|first [|second symbols] IH]; intros c Hne; [done|..].
  - cbn [turns_log turns_clock]. rewrite app_nil_r. unfold turn_log.
    rewrite !last_cons. rewrite last_app. cbn. done.
  - change (turns_log w c (first :: second :: symbols))
      with (turn_log w c first ++ turns_log w (turn_clock w c) (second :: symbols)).
    by rewrite last_app, IH.
Qed.

(** X12: [updateAllPrices] waits 1000 ms after every request, the last one
    included: it ends when the fourth timer fires, having made four requests
    and set four timers, at least 4000 ms after it started. *)
Theorem updateAllPrices_duration (w : World) (st : AppState) (c : Clock) :
  (∀ n, 0 ≤ latency w n) →
  (∀ n, 0 ≤ timer_lag w n) →
  let c' := final_clock (run w (updateAllPrices st) c) in
  now c + 4000 ≤ now c' ∧
  requests c' = (requests c + 4)%nat ∧
  timers c' = (timers c + 4)%nat ∧
  last (trace (run w (updateAllPrices st) c)) = Some (TimerFired (now c')).
Proof.
  intros Hlatency Hlag. unfold updateAllPrices. rewrite run_for_of_turns_full.
  unfold final_clock, trace. cbn [fst snd].
  destruct (turns_clock_counts w ["AAPL"; "MSFT"; "7203.T"; "9432.T"] c) as [-> ->].
  split_and!; [|done|done|by apply turns_log_last].
  by apply (turns_clock_elapsed w ["AAPL"; "MSFT"; "7203.T"; "9432.T"] c).
Qed.
End More_batch_properties.

(** ** Properties of the section toggles, the search box and the filters *)

(** X13: [toggleSection] flips the flag of its section and no other;
    toggling a section twice restores the state; toggles of two sections
    commute. *)
Theorem toggleSection_flips_one_flag
    (section other : SectionKey) (prev : ExpandedSections) :
  other ≠ section →
  section_get section (toggleSection section prev) = negb (section_get section prev) ∧
  section_get other (toggleSection section prev) = section_get other prev ∧
  toggleSection section (toggleSection section prev) = prev ∧
  toggleSection section (toggleSection other prev) =
    toggleSection other (toggleSection section prev).
Proof.
  intros Hne. destruct prev as [d u f].
  destruct section, other; try done; cbn; by rewrite ?negb_involutive.
Qed.


Lemma apply_edits_cons (key value : string) (edits : list (string * string))
    (filters : gmap string string) :
  apply_edits ((key, value) :: edits) filters =
    apply_edits edits (handleFilterChange key value filters).
Proof. reflexivity. Qed.

Lemma apply_edits_lookup
    (edits : list (string * string)) (filters : gmap string string) (key : string) :
  apply_edits edits filters !! key =
    match last_edit key edits with
    | Some value => Some value
    | None => filters !! key
    end.
Proof.
  revert filters. induction edits as [|[key' value] edits IH]; intros filters; [done|].
  rewrite apply_edits_cons, IH. cbn [last_edit].
  destruct (last_edit key edits) as [later|]; [done|].
  unfold handleFilterChange.
  case_decide as Heq; [subst; by rewrite lookup_insert_eq|by rewrite lookup_insert_ne].
Qed.

(** X15: after any sequence of [handleFilterChange] calls, a filter holds
    the value of the latest call for its key, and a filter no call named
    holds what it held at the start. *)
Theorem filters_hold_latest_edit
    (edits : list (string * string)) (filters : gmap string string) (key : string) :
  apply_edits edits filters !! key =
    match last_edit key edits with
    | Some value => Some value
    | None => filters !! key
    end.
Proof.
  revert filters. induction edits as [|[key' value] edits IH]; intros filters; [done|].
  rewrite apply_edits_cons, IH. cbn [last_edit].
  destruct (last_edit key edits) as [later|]; [done|].
  unfold handleFilterChange.
  case_decide as Heq; [subst; by rewrite lookup_insert_eq|by rewrite lookup_insert_ne].
Qed.

Lemma last_edit_is_Some (key : string) (edits : list (string * string)) :
  is_Some (last_edit key edits) → key ∈ edits.*1.
Proof.
  induction edits as [|[key' value] edits IH]; cbn; [by intros [? [=]]|].
  destruct (last_edit key edits) as [later|].
  - intros _. apply list_elem_of_further, IH. eauto.
  - case_decide as Heq; [subst; intros _; apply list_elem_of_here|by intros [? [=]]].
Qed.

Lemma initial_filters_lookup (key : string) :
  is_Some (initial_filters !! key) ↔ key ∈ filter_keys.
Proof.
  unfold initial_filters. rewrite <- elem_of_dom, dom_list_to_map_L, elem_of_list_to_set.
  done.
Qed.

(** X16: after [resetFilters], whatever the filters were, and then any
    sequence of [handleFilterChange] calls that name filters of the form (as
    every call site does), the state has exactly the eleven fields of the
    form. *)
Theorem filters_keep_their_fields
    (edits : list (string * string)) (filters : gmap string string) (key : string) :
  Forall (λ edit, edit.1 ∈ filter_keys) edits →
  is_Some (apply_edits edits (resetFilters filters) !! key) ↔ key ∈ filter_keys.
Proof.
  intros Hedits. unfold resetFilters.
  rewrite apply_edits_lookup.
  destruct (last_edit key edits) as [value|] eqn:Hlast; [|apply initial_filters_lookup].
  split; [intros _|by eauto].
  assert (key ∈ edits.*1) as Hkey by (apply last_edit_is_Some; eauto).
  apply list_elem_of_fmap in Hkey as ([key' value'] & -> & Hin).
  by apply (proj1 (Forall_forall _ _) Hedits) in Hin.
Qed.

Lemma append_String (c : ascii) (s t : string) :
  String c s +:+ t = String c (s +:+ t).
Proof. reflexivity. Qed.

Lemma trim_start_blank (s : string) :
  trim_start s = "" ↔ all_whitespace s = true.
Proof.
  induction s as [|c s IH]; cbn; [done|].
  destruct (is_StrWhiteSpaceChar c); cbn; [done|]. split; [done|by intros [=]].
Qed.

Lemma trim_end_blank (s : string) :
  trim_end s = "" ↔ all_whitespace s = true.
Proof.
  induction s as [|c s IH]; cbn; [done|].
  destruct (is_StrWhiteSpaceChar c); cbn; [|split; [done|by intros [=]]].
  destruct (trim_end s) as [|c' s'] eqn:Hend; cbn.
  - split; [intros _; by apply IH|done].
  - split; [done|]. intros Hblank. by apply IH in Hblank.
Qed.

Lemma trim_start_head (s : string) :
  match trim_start s with
  | String c _ => is_StrWhiteSpaceChar c = false
  | EmptyString => True
  end.
Proof.
  induction s as [|c s IH]; cbn; [done|].
  by destruct (is_StrWhiteSpaceChar c) eqn:Hc; cbn.
Qed.

Lemma String_trim_blank (s : string) :
  String_trim s = "" ↔ all_whitespace s = true.
Proof.
  unfold String_trim. rewrite <- trim_start_blank.
  pose proof (trim_start_head s) as Hhead.
  destruct (trim_start s) as [|c t]; [done|].
  cbn. rewrite Hhead. cbn. split; by intros [=].
Qed.

Lemma trim_start_app_blank (p s : string) :
  all_whitespace p = true → trim_start (p +:+ s) = trim_start s.
Proof.
  induction p as [|c p IH]; [done|]. rewrite append_String. cbn.
  intros [-> Hp]%andb_true_iff. by apply IH.
Qed.

Lemma trim_end_app_blank (s q : string) :
  all_whitespace q = true → trim_end (s +:+ q) = trim_end s.
Proof.
  intros Hq. induction s as [|c s IH].
  - change ("" +:+ q) with q. by apply trim_end_blank.
  - rewrite append_String. cbn. by rewrite IH.
Qed.

Lemma trim_start_app_r (s q : string) :
  all_whitespace s = false → trim_start (s +:+ q) = trim_start s +:+ q.
Proof.
  induction s as [|c s IH]; [done|]. rewrite append_String. cbn.
  destruct (is_StrWhiteSpaceChar c); cbn; [done|]. intros _. by rewrite append_String.
Qed.

Lemma all_whitespace_app (s q : string) :
  all_whitespace (s +:+ q) = all_whitespace s && all_whitespace q.
Proof.
  induction s as [|c s IH]; [done|]. rewrite append_String. cbn.
  by rewrite IH, andb_assoc.
Qed.

(** X17: white space around a search term does not count:
    [String.prototype.trim] gives the same for a term and for the term
    between two runs of white space, so [handleSearch] leaves the same term
    and starts the same handler for both, when the term is not blank. *)
Theorem handleSearch_ignores_padding
    (toUpperCase : string → string) (onStockSearch : string → act unit)
    (before term after : string) :
  all_whitespace before = true →
  all_whitespace after = true →
  all_whitespace term = false →
  String_trim (before +:+ term +:+ after) = String_trim term ∧
  handleSearch toUpperCase (Some onStockSearch) (before +:+ term +:+ after) =
    handleSearch toUpperCase (Some onStockSearch) term.
Proof.
  intros Hbefore Hafter Hterm.
  assert (String_trim (before +:+ term +:+ after) = String_trim term) as Htrim.
  { unfold String_trim.
    by rewrite trim_start_app_blank, trim_start_app_r, trim_end_app_blank. }
  split; [done|]. unfold handleSearch. rewrite Htrim.
  destruct (String.eqb (String_trim term) "") eqn:Hblank; [|done].
  apply String.eqb_eq, String_trim_blank in Hblank. congruence.
Qed.

(** X18: a blank search term (empty or white space only) starts nothing
    and stays in the box, whatever [onStockSearch] is. *)
Theorem handleSearch_blank
    (toUpperCase : string → string) (onStockSearch : option (string → act unit))
    (term : string) :
  all_whitespace term = true →
  handleSearch toUpperCase onStockSearch term = (term, None).
Proof.
  intros Hblank%String_trim_blank. unfold handleSearch. by rewrite Hblank.
Qed.

Section Search_properties.
Context `{Host}.
Import AlphaVantageAPI.

(** X19: a search term that is not blank empties the box and starts one
    fetch, for the term trimmed and in upper case: its one request is for
    that symbol, and no entry of the cache under another key changes. *)
Theorem handleSearch_fetches_trimmed_upper_case
    (toUpperCase : string → string) (term : string)
    (w : World) (c : Clock) (st : AppState) :
  all_whitespace term = false →
  ∃ started,
    handleSearch toUpperCase (Some fetchStockPrice) term = ("", Some started) ∧
    requested_urls (trace (run w (started st) c)) =
      [request_url (toUpperCase (String_trim term))] ∧
    completion (run w (started st) c) = Ok tt ∧
    ∀ other, other ≠ toUpperCase (String_trim term) →
      stockPrices (final_state (run w (started st) c)) !! other = stockPrices st !! other.
Proof.
  intros Hterm. unfold handleSearch.
  destruct (String.eqb (String_trim term) "") eqn:Hblank.
  { apply String.eqb_eq, String_trim_blank in Hblank. congruence. }
  eexists. split; [done|].
  destruct (final_fetchStockPrice w (toUpperCase (String_trim term)) st c) as [-> _].
  rewrite run_fetchStockPrice. split_and!.
  - unfold trace, requested_urls. cbn. by destruct (daily_data _).
  - done.
  - intros other Hne. rewrite stockPrices_state_after, lookup_cache_after.
    destruct (fetch_outcome _ _ _) as [[quote|]|e]; by rewrite ?decide_False.
Qed.
End Search_properties.

(** ** Decimal numerals *)

Lemma digit_value_pretty_N_char (d : N) :
  (d < 10)%N → digit_value 10 (pretty_N_char d) = Some d.
Proof.
  intros Hd.
  assert (d = 0 ∨ d = 1 ∨ d = 2 ∨ d = 3 ∨ d = 4 ∨ d = 5 ∨ d = 6 ∨ d = 7 ∨ d = 8 ∨ d = 9)%N
    as Hcases by lia.
  by repeat destruct Hcases as [->|Hcases]; [..|subst d].
Qed.

(** Scanning a numeral written by [pretty_N_go] reads all its digits. *)
Lemma scan_digits_pretty_N_go (x : N) :
  ∀ (s : string) (acc : N) (n : nat),
    ∃ k : nat, ((0 < x)%N → (0 < k)%nat) ∧
      scan_digits 10 (pretty_N_go x s) acc n =
        scan_digits 10 s (acc * 10 ^ N.of_nat k + x)%N (n + k)%nat.
Proof.
  induction (N.lt_wf_0 x) as [x _ IH]; intros s acc n.
  destruct (decide (x = 0)%N) as [->|Hpos].
  { exists 0%nat. split; [lia|].
    by rewrite pretty_N_go_0, N.pow_0_r, N.mul_1_r, N.add_0_r, Nat.add_0_r. }
  rewrite pretty_N_go_step by lia.
  destruct (IH (x `div` 10)%N ltac:(apply N.div_lt; lia)
              (String (pretty_N_char (x `mod` 10)) s) acc n) as (k & _ & ->).
  exists (S k). split; [lia|]. cbn [scan_digits].
  rewrite digit_value_pretty_N_char by (apply N.mod_lt; lia).
  f_equal; [|lia].
  rewrite Nat2N.inj_succ, N.pow_succ_r'.
  pose proof (N.div_mod x 10 ltac:(lia)) as Hx.
  set (p := (10 ^ N.of_nat k)%N) in *. nia.
Qed.

(** A numeral written by [pretty_N_go] starts with a digit other than 0. *)
Lemma pretty_N_go_head (x : N) :
  (0 < x)%N →
  ∀ s, ∃ d r, (0 < d < 10)%N ∧ pretty_N_go x s = String (pretty_N_char d) r.
Proof.
  induction (N.lt_wf_0 x) as [x _ IH]; intros Hpos s.
  rewrite pretty_N_go_step by done.
  destruct (decide (x `div` 10 = 0)%N) as [Hsmall|Hbig].
  - rewrite Hsmall, pretty_N_go_0. exists (x `mod` 10)%N, s. split; [|done].
    pose proof (N.div_mod x 10 ltac:(lia)). pose proof (N.mod_lt x 10 ltac:(lia)). lia.
  - apply IH; [apply N.div_lt; lia|by apply N.neq_0_lt_0].
Qed.

Lemma parseInt_string_numeral (d : N) (r : string) :
  (0 < d < 10)%N →
  parseInt_string (String (pretty_N_char d) r) =
    let '(v, n, _) := scan_digits 10 (String (pretty_N_char d) r) 0 0 in
    if (n =? 0)%nat then NaN
    else match v with
         | N0 => S754_zero false
         | Npos p => Number_of_Z (Z.pos p)
         end.
Proof.
  intros Hd.
  assert (d = 1 ∨ d = 2 ∨ d = 3 ∨ d = 4 ∨ d = 5 ∨ d = 6 ∨ d = 7 ∨ d = 8 ∨ d = 9)%N
    as Hcases by lia.
  by repeat destruct Hcases as [->|Hcases]; [..|subst d].
Qed.

Lemma parseInt_string_pretty (n : N) :
  parseInt_string (pretty n) = Number_of_Z (Z.of_N n).
Proof.
  unfold pretty, pretty_N. case_decide as Hzero; [by subst|].
  destruct (pretty_N_go_head n ltac:(lia) "") as (d & r & Hd & Hhead).
  destruct (scan_digits_pretty_N_go n "" 0 0) as (k & Hk & Hscan).
  rewrite Hhead in *. rewrite parseInt_string_numeral, Hscan by done.
  cbn [scan_digits]. destruct k as [|k]; [lia|]. cbn.
  by destruct n.
Qed.

Section Numeral_properties.
Context `{Host}.
Import AlphaVantageAPI.

(** X20: when the volume of the latest entry is the decimal numeral of a
    natural number [n] (and the four prices are strings or missing), the
    Quote's volume is the Number for [n]. *)
Theorem parseStockData_volume_numeral
    (props series entry : gmap string json) (d : string) (n : N) :
  props !! "Time Series (Daily)" = Some (JObj series) →
  series !! d = Some (JObj entry) →
  (∀ k, is_Some (series !! k) → (k ≤ d)%string) →
  (∀ key, key ∈ ["1. open"; "2. high"; "3. low"; "4. close"] →
          entry !! key = None ∨ ∃ s, entry !! key = Some (JStr s)) →
  entry !! "5. volume" = Some (JStr (pretty n)) →
  ∃ quote, parseStockData (Some (JObj props)) = Ok (Some quote) ∧
           volume quote = Number_of_Z (Z.of_N n).
Proof.
  intros Hts Hd Hmax Hprices Hvolume.
  erewrite parseStockData_string_or_missing; [|done..|].
  - eexists. split; [done|]. cbn [volume]. unfold field_number.
    by rewrite Hvolume, parseInt_string_pretty.
  - intros key Hkey.
    destruct (decide (key = "5. volume")) as [->|Hne]; [eauto|].
    apply Hprices.
    repeat (apply elem_of_cons in Hkey as [->|Hkey]; [by repeat constructor|]).
    by apply elem_of_nil in Hkey.
Qed.
End Numeral_properties.

(** ** Closed instances of the further properties *)

Import More_examples.

(** 2024-01-03 is the greatest key of a series with that key only. *)
Lemma one_day_latest (entry : json) (k : string) :
  is_Some (one_day entry !! k) → (k ≤ "2024-01-03")%string.
Proof.
  unfold one_day. intros [x Hx]. by apply lookup_singleton_Some in Hx as [<- _].
Defined.

(** 2024-01-03 is the greatest key of [two_days_older_null]. *)
Lemma two_days_older_null_latest (k : string) :
  is_Some (two_days_older_null !! k) → (k ≤ "2024-01-03")%string.
Proof.
  unfold two_days_older_null. intros [x Hx].
  apply lookup_insert_Some in Hx as [[<- _]|[_ Hx]]; [done|].
  by apply lookup_singleton_Some in Hx as [<- _].
Defined.

(** An instance of X1: the body is the JSON string "busy". *)
Lemma non_object_body_is_silent_witness :
  settled (run (Sample.always (Sample.body (JStr "busy")))
             (AlphaVantageAPI.getDailyData (H := Sample.host) "AAPL") Sample.start)
    = Ok (JStr "busy") ∧
  AlphaVantageAPI.parseStockData (H := Sample.host) (Some (JStr "busy")) = Ok None ∧
  settled (run (Sample.always (Sample.body (JStr "busy")))
             (fetchStockPrice (H := Sample.host) "AAPL" Sample.idle) Sample.start)
    = (Ok tt, {| stockPrices := stockPrices Sample.idle; isLoading := false;
                 apiStatus := "AAPL" +:+ " のデータを取得中..." |}) ∧
  List.filter is_logged
    (trace (run (Sample.always (Sample.body (JStr "busy")))
              (fetchStockPrice (H := Sample.host) "AAPL" Sample.idle) Sample.start)) = [].
Proof.
  apply (non_object_body_is_silent (H := Sample.host)
           (Sample.always (Sample.body (JStr "busy"))) Sample.start "AAPL" Sample.idle
           (JStr "busy")); [reflexivity|exact I].
Defined.

(** An instance of X2: the body is [null]. *)
Lemma null_body_is_a_type_error_witness :
  settled (run (Sample.always (Sample.body JNull))
             (AlphaVantageAPI.getDailyData (H := Sample.host) "AAPL") Sample.start)
    = Throw (cannot_read "null" "Error Message") ∧
  class (cannot_read "null" "Error Message") = TypeError ∧
  List.filter is_logged
    (trace (run (Sample.always (Sample.body JNull))
              (AlphaVantageAPI.getDailyData (H := Sample.host) "AAPL") Sample.start)) =
    [Logged "API Error:" (cannot_read "null" "Error Message")] ∧
  settled (run (Sample.always (Sample.body JNull))
             (fetchStockPrice (H := Sample.host) "AAPL" Sample.idle) Sample.start)
    = (Ok tt, {| stockPrices := stockPrices Sample.idle; isLoading := false;
                 apiStatus := "エラー: " +:+ message (cannot_read "null" "Error Message") |}).
Proof.
  apply (null_body_is_a_type_error (H := Sample.host)
           (Sample.always (Sample.body JNull)) Sample.start "AAPL" Sample.idle).
  reflexivity.
Defined.

(** An instance of X5: the Quote parsed from [two_days]. *)
Lemma parseStockData_date_is_greatest_key_witness :
  ∃ timeSeries keys d,
    Get (Some (JObj (daily two_days))) "Time Series (Daily)" = Ok timeSeries ∧
    Object_keys timeSeries = Ok keys ∧
    date sample_quote = Some d ∧ greatest_in d keys.
Proof.
  apply (parseStockData_date_is_greatest_key (H := Sample.host)
           (Some (JObj (daily two_days))) sample_quote).
  vm_compute. reflexivity.
Defined.

(** An instance of X6: the sample entry without its volume. *)
Lemma parseStockData_missing_fields_are_NaN_witness :
  AlphaVantageAPI.parseStockData (H := Sample.host)
      (Some (JObj (daily (one_day (JObj entry_without_volume))))) =
    Ok (Some {| date := Some "2024-01-03";
                open := field_number parseFloat_string entry_without_volume "1. open";
                high := field_number parseFloat_string entry_without_volume "2. high";
                low := field_number parseFloat_string entry_without_volume "3. low";
                close := field_number parseFloat_string entry_without_volume "4. close";
                volume := field_number parseInt_string entry_without_volume "5. volume" |}) ∧
  field_number parseInt_string entry_without_volume "5. volume" = NaN.
Proof.
  split; [|reflexivity].
  apply (parseStockData_missing_fields_are_NaN (H := Sample.host)
           (daily (one_day (JObj entry_without_volume)))
           (one_day (JObj entry_without_volume)) entry_without_volume "2024-01-03");
    [reflexivity|reflexivity|apply one_day_latest|].
  intros key Hkey.
  repeat (apply elem_of_cons in Hkey as [->|Hkey];
          [first [left; reflexivity|right; eexists; reflexivity]|]).
  by apply elem_of_nil in Hkey.
Defined.

(** An instance of X7: the older entry is the sample entry in one response
    and [null] in the other. *)
Lemma parseStockData_reads_latest_entry_only_witness :
  AlphaVantageAPI.parseStockData (H := Sample.host) (Some (JObj (daily two_days))) =
  AlphaVantageAPI.parseStockData (H := Sample.host) (Some (JObj (daily two_days_older_null))).
Proof.
  apply (parseStockData_reads_latest_entry_only (H := Sample.host)
           (daily two_days) (daily two_days_older_null) two_days two_days_older_null
           "2024-01-03");
    [reflexivity|reflexivity|by eexists|reflexivity|
     exact two_days_latest|exact two_days_older_null_latest].
Defined.

(** An instance of X8: the first fetch of AAPL caches the sample Quote, the
    second fails, and the Quote stays. *)
Lemma refetch_keeps_or_replaces_witness :
  stockPrices
    (final_state
       (run (first_then (Sample.body (JObj (daily two_days))) (Throw failed_to_fetch))
          (fetchStockPrice (H := Sample.host) "AAPL"
             (final_state
                (run (first_then (Sample.body (JObj (daily two_days))) (Throw failed_to_fetch))
                   (fetchStockPrice (H := Sample.host) "AAPL" Sample.idle) Sample.start)))
          (final_clock
             (run (first_then (Sample.body (JObj (daily two_days))) (Throw failed_to_fetch))
                (fetchStockPrice (H := Sample.host) "AAPL" Sample.idle) Sample.start))))
    !! "AAPL" =
    match fetch_outcome (H := Sample.host)
            (first_then (Sample.body (JObj (daily two_days))) (Throw failed_to_fetch))
            (S (requests Sample.start)) "AAPL" with
    | Ok (Some second) => Some second
    | _ => Some sample_quote
    end ∧
  ∀ other, other ≠ "AAPL" →
    stockPrices
      (final_state
         (run (first_then (Sample.body (JObj (daily two_days))) (Throw failed_to_fetch))
            (fetchStockPrice (H := Sample.host) "AAPL"
               (final_state
                  (run (first_then (Sample.body (JObj (daily two_days))) (Throw failed_to_fetch))
                     (fetchStockPrice (H := Sample.host) "AAPL" Sample.idle) Sample.start)))
            (final_clock
               (run (first_then (Sample.body (JObj (daily two_days))) (Throw failed_to_fetch))
                  (fetchStockPrice (H := Sample.host) "AAPL" Sample.idle) Sample.start))))
      !! other = stockPrices Sample.idle !! other.
Proof.
  apply (refetch_keeps_or_replaces (H := Sample.host)
           (first_then (Sample.body (JObj (daily two_days))) (Throw failed_to_fetch))
           Sample.start "AAPL" Sample.idle sample_quote).
  vm_compute. reflexivity.
Defined.

(** An instance of X12: every request fails. *)
Lemma updateAllPrices_duration_witness :
  now Sample.start + 4000 ≤
    now (final_clock (run (Sample.always (Throw failed_to_fetch))
                        (updateAllPrices (H := Sample.host) Sample.idle) Sample.start)) ∧
  requests (final_clock (run (Sample.always (Throw failed_to_fetch))
                           (updateAllPrices (H := Sample.host) Sample.idle) Sample.start)) =
    (requests Sample.start + 4)%nat ∧
  timers (final_clock (run (Sample.always (Throw failed_to_fetch))
                         (updateAllPrices (H := Sample.host) Sample.idle) Sample.start)) =
    (timers Sample.start + 4)%nat ∧
  last (trace (run (Sample.always (Throw failed_to_fetch))
                 (updateAllPrices (H := Sample.host) Sample.idle) Sample.start)) =
    Some (TimerFired
            (now (final_clock (run (Sample.always (Throw failed_to_fetch))
                                 (updateAllPrices (H := Sample.host) Sample.idle)
                                 Sample.start)))).
Proof.
  apply (updateAllPrices_duration (H := Sample.host)
           (Sample.always (Throw failed_to_fetch)) Sample.idle Sample.start);
    intros n; simpl; lia.
Defined.

(** An instance of X13: the domestic section, next to the US one. *)
Lemma toggleSection_flips_one_flag_witness :
  section_get key_domestic (toggleSection key_domestic initial_sections) =
    negb (section_get key_domestic initial_sections) ∧
  section_get key_us (toggleSection key_domestic initial_sections) =
    section_get key_us initial_sections ∧
  toggleSection key_domestic (toggleSection key_domestic initial_sections) =
    initial_sections ∧
  toggleSection key_domestic (toggleSection key_us initial_sections) =
    toggleSection key_us (toggleSection key_domestic initial_sections).
Proof.
  apply (toggleSection_flips_one_flag key_domestic key_us initial_sections).
  discriminate.
Defined.

(** An instance of X16: three edits after a reset of the empty state. *)
Lemma filters_keep_their_fields_witness :
  is_Some (apply_edits some_edits (resetFilters ∅) !! "maxPbr") ↔ "maxPbr" ∈ filter_keys.
Proof.
  apply (filters_keep_their_fields some_edits ∅ "maxPbr").
  repeat constructor.
Defined.

(** An instance of X17: " aapl " and "aapl". *)
Lemma handleSearch_ignores_padding_witness :
  String_trim (" " +:+ "aapl" +:+ " ") = String_trim "aapl" ∧
  handleSearch to_upper_ascii (Some (fetchStockPrice (H := Sample.host)))
      (" " +:+ "aapl" +:+ " ") =
    handleSearch to_upper_ascii (Some (fetchStockPrice (H := Sample.host))) "aapl".
Proof.
  apply (handleSearch_ignores_padding to_upper_ascii (fetchStockPrice (H := Sample.host))
           " " "aapl" " "); reflexivity.
Defined.

(** An instance of X18: a term of three spaces. *)
Lemma handleSearch_blank_witness :
  handleSearch to_upper_ascii (Some (fetchStockPrice (H := Sample.host))) "   " =
    ("   ", None).
Proof.
  apply (handleSearch_blank to_upper_ascii (Some (fetchStockPrice (H := Sample.host))) "   ").
  reflexivity.
Defined.

(** An instance of X19: the term " aapl " starts the fetch of AAPL. *)
Lemma handleSearch_fetches_trimmed_upper_case_witness :
  ∃ started,
    handleSearch to_upper_ascii (Some (fetchStockPrice (H := Sample.host))) " aapl " =
      ("", Some started) ∧
    requested_urls
      (trace (run (Sample.always (Sample.body (JObj (daily two_days))))
                (started Sample.idle) Sample.start)) =
      [AlphaVantageAPI.request_url (H := Sample.host)
         (to_upper_ascii (String_trim " aapl "))] ∧
    completion (run (Sample.always (Sample.body (JObj (daily two_days))))
                  (started Sample.idle) Sample.start) = Ok tt ∧
    ∀ other, other ≠ to_upper_ascii (String_trim " aapl ") →
      stockPrices (final_state (run (Sample.always (Sample.body (JObj (daily two_days))))
                                  (started Sample.idle) Sample.start)) !! other =
        stockPrices Sample.idle !! other.
Proof.
  apply (handleSearch_fetches_trimmed_upper_case (H := Sample.host) to_upper_ascii " aapl "
           (Sample.always (Sample.body (JObj (daily two_days)))) Sample.start Sample.idle).
  reflexivity.
Defined.

(** An instance of X20: the volume "1000000" of the sample entry. *)
Lemma parseStockData_volume_numeral_witness :
  ∃ quote,
    AlphaVantageAPI.parseStockData (H := Sample.host) (Some (JObj (daily two_days)))
      = Ok (Some quote) ∧
    volume quote = Number_of_Z (Z.of_N 1000000).
Proof.
  apply (parseStockData_volume_numeral (H := Sample.host) (daily two_days) two_days
           sample_entry "2024-01-03" 1000000);
    [reflexivity|reflexivity|exact two_days_latest| |reflexivity].
  intros key Hkey. right.
  repeat (apply elem_of_cons in Hkey as [->|Hkey]; [eexists; reflexivity|]).
  by apply elem_of_nil in Hkey.
Defined.
